(** * Bepshapati backend: the product routes of [src/api/index.ts]

    A shallow embedding of the two routes that write the [products]
    collection, [app.post("/api/products")] and
    [app.put("/api/products/:id")], together with a model of the part of
    the document store they talk to ([insertOne] and [updateOne] with a
    [$set] document).

    - JavaScript values are the inductive type [Value]; a JSON object is a
      finite map from property names to values.
    - The handlers are written in a small state-and-exception monad [M]:
      the state is the collection and the list of store operations issued
      so far, the exception is what an awaited store call rejects with.
    - What the [bson] library and the store decide on their own (which
      strings are identifiers, which field names a path may use, which path
      components index an array) is the class [Platform]; nothing is
      assumed about it beyond what a statement says. *)

From Stdlib Require Import ZArith String Ascii PrimFloat.
From stdpp Require Import gmap strings list fin_maps.

(** ** JavaScript values *)

(** The values a request body, a stored document or a response can hold.
    [VNum] is an IEEE 754 double, as every JavaScript number is. [VDate] is a
    [Date] (milliseconds since the epoch) and [VObjectId] a bson [ObjectId];
    neither comes out of [JSON.parse], both are created by the handlers and
    the driver. *)
Record ObjectId : Type := mkObjectId { oid_hex : string }.

#[warnings="-register-all"]
Inductive Value : Type :=
| VUndefined
| VNull
| VBool (b : bool)
| VNum (x : float)
| VStr (s : string)
| VDate (t : Z)
| VObjectId (o : ObjectId)
| VArr (l : list Value)
| VDoc (m : gmap string Value).

Abbreviation Doc := (gmap string Value).

#[global] Instance ObjectId_eq_dec : EqDecision ObjectId.
Proof. solve_decision. Defined.

(** [ToBoolean]: what [if (v)], [!v], [a && b] and [a || b] test. *)
Definition truthy (v : Value) : bool :=
  match v with
  | VUndefined | VNull => false
  | VBool b => b
  | VNum x => negb (PrimFloat.eqb x 0%float) && PrimFloat.eqb x x
  | VStr s => negb (String.eqb s "")
  | VDate _ | VObjectId _ | VArr _ | VDoc _ => true
  end.

(** [a || b] on values. *)
Definition js_or (a b : Value) : Value := if truthy a then a else b.

(** [o.k] for an object [o] parsed from JSON and a name [k] that
    [Object.prototype] does not define ([comment], [ratings], [name], ...):
    the own property, or [undefined]. *)
Definition prop (o : Doc) (k : string) : Value := default VUndefined (o !! k).

(** [v?.k] for the reviewer names: [undefined] when [v] is [null] or
    [undefined], the own property when [v] is an object, and [undefined] for
    strings, numbers, booleans and arrays, whose prototypes define none of
    these names. *)
Definition opt_member (v : Value) (k : string) : Value :=
  match v with
  | VDoc m => prop m k
  | _ => VUndefined
  end.

(** [Array.isArray(v)]. *)
Definition isArray (v : Value) : bool :=
  match v with VArr _ => true | _ => false end.

(** [Object.keys(o)]; the handlers only ask whether some key satisfies a
    test, so the order of the keys does not matter. *)
Definition keys (o : Doc) : list string := (map_to_list o).*1.

(** [key.startsWith(p)]. *)
Definition startsWith (p key : string) : bool := String.prefix p key.

(** ** Exceptions *)

(** What a [catch] clause can receive: an [Error] object (here with the
    two things the handlers look at besides its message: whether it is a
    [MongoServerError], and its [code]), or any other thrown value. *)
Record JsError : Type := mkError {
  is_MongoServerError : bool;
  err_code : option Z;
  err_message : string
}.

Inductive Exn : Type :=
| ThrownError (e : JsError)
| ThrownValue (v : Value).

Definition server_error (code : Z) (msg : string) : Exn :=
  ThrownError (mkError true (Some code) msg).

(** The error monad of the store model. *)
#[global] Instance result_ret : MRet (sum Exn) := fun _ x => inr x.
#[global] Instance result_bind : MBind (sum Exn) := fun _ _ f r =>
  match r with
  | inl e => inl e
  | inr x => f x
  end.

(** ** What the platform decides *)

(** [ObjectId.isValid] and [new ObjectId] belong to the bson library and the
    rules for the names in an update path to the store; their code is not
    part of this repository and they are parameters of the development. *)
Class Platform : Type := {
  (** [ObjectId.isValid(id)] for a route parameter, which is a string. *)
  ObjectId_isValid : string -> bool;
  (** [new ObjectId(id)] for a string that [ObjectId.isValid] accepts. *)
  ObjectId_new : string -> ObjectId;
  (** Whether the store accepts a name as one component of a dotted
      update path. *)
  field_name_ok : string -> bool;
  (** The array position a path component stands for, if any. *)
  array_index : string -> option nat
}.

(** ** The document store *)

(** The store is MongoDB behind its Node driver; neither is code of this
    repository. This module models what the two routes rely on: [insertOne]
    of a document without identifier, and [updateOne] with the filter
    [{ _id }] and a [$set] document, whose field names are dotted paths into
    the stored document. *)
Module Mongo.

(** A collection is the sequence of its documents. *)
Abbreviation Collection := (list Doc).

(** The driver's [UpdateResult], of which the handlers read
    [matchedCount]. *)
Record UpdateResult : Type := mkUpdateResult { matchedCount : nat }.

(** A dotted field path, cut at every ['.']. *)
Fixpoint split_path (key : string) : list string :=
  match key with
  | EmptyString => [""]
  | String c rest =>
      if Ascii.eqb c "."%char then "" :: split_path rest
      else match split_path rest with
           | x :: xs => String c x :: xs
           | [] => [String c ""]
           end
  end.

(** The dotted name of a path; [split_path] undoes it. *)
Fixpoint join_path (p : list string) : string :=
  match p with
  | [] => ""
  | x :: rest =>
      match rest with
      | [] => x
      | _ :: _ => x +:+ "." +:+ join_path rest
      end
  end.

(** Two paths of one update document conflict when one extends the other. *)
Definition conflict (p q : list string) : bool :=
  bool_decide (p ≠ q) && bool_decide (p `prefix_of` q).

Definition conflict_free (paths : list (list string)) : bool :=
  forallb (fun p => forallb (fun q => negb (conflict p q)) paths) paths.

Section WithPlatform.
Context `{Platform}.

(** The checks the store makes on a [$set] document before it looks for a
    document to update: every path component is an acceptable name, and no
    two paths conflict. *)
Definition valid_update (fields : Doc) : bool :=
  let paths := split_path <$> keys fields in
  forallb (forallb field_name_ok) paths && conflict_free paths.

(** [set_path path v target]: [target] with [v] stored at [path] below it.
    Missing embedded documents are created, a missing array position is
    padded with [null], and a path that runs into a scalar is an error. *)
Fixpoint set_path (path : list string) (v : Value) (target : Value) : Exn + Value :=
  match path with
  | [] => inr v
  | k :: rest =>
      match target with
      | VDoc m =>
          child ← set_path rest v (default (VDoc ∅) (m !! k));
          inr (VDoc (<[k := child]> m))
      | VArr l =>
          match array_index k with
          | Some i =>
              child ← set_path rest v (default (VDoc ∅) (l !! i));
              inr (VArr (<[i := child]> (l ++ replicate (S i - length l) VNull)))
          | None => inl (server_error 28 "Cannot create field in element")
          end
      | _ => inl (server_error 28 "Cannot create field in element")
      end
  end.

(** One field of a [$set] document applied to the matched document, whose
    identifier is [oid]. [_id] is immutable: setting it to the value it has
    changes nothing, anything else addressed at [_id] is an error. *)
Definition set_field (oid : ObjectId) (key : string) (v : Value) (d : Doc) : Exn + Doc :=
  match split_path key with
  | [] => inl (server_error 56 "An empty update path is not valid")
  | k :: rest =>
      if String.eqb k "_id" then
        match rest, v with
        | [], VObjectId o =>
            if bool_decide (o = oid) then inr d
            else inl (server_error 66 "Performing an update on the path '_id' would modify the immutable field '_id'")
        | _, _ =>
            inl (server_error 66 "Performing an update on the path '_id' would modify the immutable field '_id'")
        end
      else
        child ← set_path rest v (default (VDoc ∅) (d !! k));
        inr (<[k := child]> d)
  end.

(** All the fields of a [$set] document, one after the other. *)
Fixpoint set_fields (oid : ObjectId) (fields : list (string * Value)) (d : Doc) : Exn + Doc :=
  match fields with
  | [] => inr d
  | (key, v) :: more => d' ← set_field oid key v d; set_fields oid more d'
  end.

Definition apply_set (oid : ObjectId) (fields : Doc) (d : Doc) : Exn + Doc :=
  set_fields oid (map_to_list fields) d.

(** The filter [{ _id: oid }]. *)
Definition has_id (oid : ObjectId) (d : Doc) : bool :=
  match d !! "_id" with
  | Some (VObjectId o) => bool_decide (o = oid)
  | _ => false
  end.

(** The first document that matches the filter is replaced by [f] of it;
    [None] when no document matches. *)
Fixpoint update_first (oid : ObjectId) (f : Doc -> Exn + Doc) (c : Collection)
  : Exn + option Collection :=
  match c with
  | [] => inr None
  | d :: c' =>
      if has_id oid d then d' ← f d; inr (Some (d' :: c'))
      else r ← update_first oid f c'; inr (fmap (M:=option) (cons d) r)
  end.

(** [collection.updateOne({ _id: oid }, { $set: fields })], no upsert. *)
Definition updateOne (c : Collection) (oid : ObjectId) (fields : Doc)
  : Exn + (UpdateResult * Collection) :=
  if negb (valid_update fields) then
    inl (server_error 40 "The update document is not valid")
  else
    r ← update_first oid (apply_set oid fields) c;
    match r with
    | None => inr (mkUpdateResult 0, c)
    | Some c' => inr (mkUpdateResult 1, c')
    end.

(** [collection.insertOne(doc)] for a document without [_id]: the driver
    gives it the identifier [fresh]; the unique index on [_id] rejects an
    identifier that is already there with error 11000. *)
Definition insertOne (c : Collection) (fresh : ObjectId) (doc : Doc)
  : Exn + (ObjectId * Collection) :=
  if existsb (has_id fresh) c then
    inl (server_error 11000 "E11000 duplicate key error")
  else
    inr (fresh, c ++ [<["_id" := VObjectId fresh]> doc]).

End WithPlatform.

End Mongo.

(** ** The handler monad *)

Module Api.
Import Mongo.

(** A store operation as the handlers issue it. *)
Inductive StoreOp : Type :=
| OpInsertOne (doc : Doc)
| OpUpdateOne (oid : ObjectId) (fields : Doc).

(** What one request finds around it: the clock that [new Date()] reads,
    a failure of the store of its own (connectivity, an internal error), if
    there is one, and the identifier the driver would give a new
    document. *)
Record Env : Type := mkEnv {
  env_now : Z;
  env_fault : option Exn;
  env_fresh : ObjectId
}.

(** The state a handler runs in: the [products] collection and the store
    operations issued so far. *)
Record World : Type := mkWorld {
  products : Collection;
  issued : list StoreOp
}.

(** A computation reads the environment, changes the world and either
    returns or throws. *)
Definition M (A : Type) : Type := Env -> World -> (Exn + A) * World.

#[global] Instance M_ret : MRet M := fun _ x _ w => (inr x, w).
#[global] Instance M_bind : MBind M := fun _ _ f m env w =>
  match m env w with
  | (inl e, w') => (inl e, w')
  | (inr x, w') => f x env w'
  end.

(** [try { body } catch (error) { handler }]. *)
Definition try_catch {A : Type} (body : M A) (handler : Exn -> M A) : M A :=
  fun env w =>
    match body env w with
    | (inl e, w') => handler e env w'
    | (inr x, w') => (inr x, w')
    end.

(** [new Date()]. *)
Definition new_Date : M Z := fun env w => (inr (env_now env), w).

(** The JSON response: [res.status(s).json(b)]; [res.json(b)] is status
    200. *)
Record Response : Type := mkResponse { status : nat; body : Doc }.

Definition json (s : nat) (b : Doc) : M Response := mret (mkResponse s b).

Definition error_body (msg : string) : Doc := {[ "error" := VStr msg ]}.

(** The outcome of a store call: the store's own failure if it has one,
    otherwise what the operation itself gives. *)
Definition settle {A : Type} (env : Env) (r : Exn + A) : Exn + A :=
  match env_fault env with
  | Some e => inl e
  | None => r
  end.

Section WithPlatform.
Context `{Platform}.

(** [await db.collection("products").updateOne({ _id: oid }, { $set: fields })]:
    the operation is issued; it rejects when the store has a failure of its
    own or refuses the update, and otherwise changes the collection. *)
Definition await_updateOne (oid : ObjectId) (fields : Doc) : M UpdateResult :=
  fun env w =>
    let log := (issued w ++ [OpUpdateOne oid fields])%list in
    match settle env (updateOne (products w) oid fields) with
    | inl e => (inl e, mkWorld (products w) log)
    | inr (res, c') => (inr res, mkWorld c' log)
    end.

(** [await db.collection("products").insertOne(doc)], resolved to its
    [insertedId]. *)
Definition await_insertOne (doc : Doc) : M ObjectId :=
  fun env w =>
    let log := (issued w ++ [OpInsertOne doc])%list in
    match settle env (insertOne (products w) (env_fresh env) doc) with
    | inl e => (inl e, mkWorld (products w) log)
    | inr (oid, c') => (inr oid, mkWorld c' log)
    end.

(** *** [app.post("/api/products")] *)

Definition post_product (body : Doc) : M Response :=
  try_catch
    (if negb (truthy (prop body "name")) || negb (isArray (prop body "imageUrls")) then
       json 400 (error_body "Missing required fields: name and imageUrls")
     else
       now ← new_Date;
       let product : Doc :=
         {[ "name" := prop body "name";
            "imageUrls" := prop body "imageUrls";
            "ratings" := VDoc
              {[ "nifar" := js_or (opt_member (prop body "ratings") "nifar") (VNum 0%float);
                 "afia" := js_or (opt_member (prop body "ratings") "afia") (VNum 0%float);
                 "sijil" := js_or (opt_member (prop body "ratings") "sijil") (VNum 0%float);
                 "naim" := js_or (opt_member (prop body "ratings") "naim") (VNum 0%float) ]};
            "comment" := js_or (prop body "comment") (VStr "");
            "createdAt" := VDate now ]} in
       insertedId ← await_insertOne product;
       json 201 (<["_id" := VStr (oid_hex insertedId)]> product))
    (fun error =>
       match error with
       | ThrownError e =>
           if is_MongoServerError e && bool_decide (err_code e = Some 11000%Z) then
             json 409 (error_body "Product with this ID already exists")
           else json 500 (error_body (err_message e))
       | ThrownValue _ => json 500 (error_body "Unknown error occurred")
       end).

(** *** [app.put("/api/products/:id")] *)

(** [updates.comment && !updates.ratings], the test of the comment branch. *)
Definition comment_guard (updates : Doc) : bool :=
  truthy (prop updates "comment") && negb (truthy (prop updates "ratings")).

(** [Object.keys(updates).some((key) => key.startsWith("ratings."))]. *)
Definition isUpdatingRatings (updates : Doc) : bool :=
  existsb (startsWith "ratings.") (keys updates).

(** [id] is [req.params.id], a string, and [updates] is [req.body], the
    JSON object of the request. *)
Definition put_product (id : string) (updates : Doc) : M Response :=
  try_catch
    (if negb (ObjectId_isValid id) then
       json 400 (error_body "Invalid product ID format")
     else if comment_guard updates then
       now ← new_Date;
       let set_doc : Doc :=
         {[ "comment" := prop updates "comment";
            "lastModifiedAt" := VDate now ]} in
       result ← await_updateOne (ObjectId_new id) set_doc;
       if Nat.eqb (matchedCount result) 0 then
         json 404 (error_body "Product not found")
       else
         json 200 {[ "message" := VStr "Comment updated successfully";
                     "product" := VDoc set_doc ]}
     else if negb (isUpdatingRatings updates) then
       json 400 (error_body "Rating is required for product updates")
     else
       now ← new_Date;
       let updates' : Doc := <["lastModifiedAt" := VDate now]> updates in
       result ← await_updateOne (ObjectId_new id) updates';
       if Nat.eqb (matchedCount result) 0 then
         json 404 (error_body "Product not found")
       else
         json 200 {[ "message" := VStr "Product updated successfully";
                     "product" := VDoc updates' ]})
    (fun _ => json 500 (error_body "Internal server error")).

(** One request served on a collection: what the handler returned or
    threw, the collection afterwards, and the store operations it issued. *)
Definition run {A : Type} (m : M A) (env : Env) (c : Collection)
  : (Exn + A) * Collection * list StoreOp :=
  let '(r, w) := m env (mkWorld c []) in (r, products w, issued w).

(** The collections the two routes can produce from an empty one, when
    the update documents are taken among those that satisfy [ok]. *)
Inductive reachable_via (ok : Doc -> Prop) : Collection -> Prop :=
| reach_empty : reachable_via ok []
| reach_post (env : Env) (body : Doc) (c : Collection) :
    reachable_via ok c ->
    reachable_via ok (run (post_product body) env c).1.2
| reach_put (env : Env) (id : string) (updates : Doc) (c : Collection) :
    ok updates ->
    reachable_via ok c ->
    reachable_via ok (run (put_product id updates) env c).1.2.

(** Every request body is allowed. *)
Definition reachable : Collection -> Prop := reachable_via (fun _ => True).

End WithPlatform.

(** The three ways the update route treats an update document, read off
    its two tests in the order in which it makes them. *)
Inductive Mode : Type := CommentOnly | RatingsMode | Rejected.

Definition mode_of (updates : Doc) : Mode :=
  if comment_guard updates then CommentOnly
  else if isUpdatingRatings updates then RatingsMode
  else Rejected.

(** The [$set] document the update route sends at time [now], if it sends
    one: the comment and the time in the comment branch, the whole update
    document with the time added in the ratings branch. *)
Definition set_document (now : Z) (updates : Doc) : option Doc :=
  match mode_of updates with
  | CommentOnly =>
      Some {[ "comment" := prop updates "comment"; "lastModifiedAt" := VDate now ]}
  | RatingsMode => Some (<["lastModifiedAt" := VDate now]> updates)
  | Rejected => None
  end.

Definition success_message (updates : Doc) : string :=
  if comment_guard updates then "Comment updated successfully"
  else "Product updated successfully".

(** The four reviewers of [interface Rating] ([src/api/types.ts]). *)
Definition reviewers : gset string := {[ "nifar"; "afia"; "sijil"; "naim" ]}.

(** A path that, if it starts at [ratings], goes on with the name of a
    reviewer. *)
Definition reviewer_path (p : list string) : bool :=
  match p with
  | k :: rest =>
      if String.eqb k "ratings" then
        match rest with
        | r :: _ => bool_decide (r ∈ reviewers)
        | [] => false
        end
      else true
  | [] => true
  end.

(** An update document that, when the route applies it in full, addresses
    [ratings] only through the four reviewers. *)
Definition reviewer_fields (updates : Doc) : Prop :=
  mode_of updates = RatingsMode ->
  forall k, k ∈ keys updates -> reviewer_path (split_path k) = true.

(** A stored product whose [ratings] is an object with exactly the four
    reviewer keys. *)
Definition ratings_shape (d : Doc) : Prop :=
  exists m : Doc, d !! "ratings" = Some (VDoc m) /\ dom m = reviewers.

End Api.

(** ** A concrete platform *)

(** The platform at which the statements below are tried out: identifiers
    are the strings of 24 hexadecimal digits, read without regard to case; a
    path component is any non-empty name that does not start with ['$'];
    array positions are the decimal numerals. *)
Module Sample.

Definition is_hex (c : ascii) : bool :=
  let n := nat_of_ascii c in
  (48 <=? n) && (n <=? 57) || (97 <=? n) && (n <=? 102) || (65 <=? n) && (n <=? 70).

Definition is_digit (c : ascii) : bool :=
  let n := nat_of_ascii c in (48 <=? n) && (n <=? 57).

Definition lower (c : ascii) : ascii :=
  let n := nat_of_ascii c in
  if (65 <=? n) && (n <=? 70) then ascii_of_nat (n + 32) else c.

Fixpoint string_map (f : ascii -> ascii) (s : string) : string :=
  match s with
  | EmptyString => EmptyString
  | String c rest => String (f c) (string_map f rest)
  end.

Fixpoint string_forall (f : ascii -> bool) (s : string) : bool :=
  match s with
  | EmptyString => true
  | String c rest => f c && string_forall f rest
  end.

Fixpoint decimal (acc : nat) (s : string) : nat :=
  match s with
  | EmptyString => acc
  | String c rest => decimal (10 * acc + (nat_of_ascii c - 48)) rest
  end.

Definition platform : Platform := {|
  ObjectId_isValid := fun s => Nat.eqb (String.length s) 24 && string_forall is_hex s;
  ObjectId_new := fun s => mkObjectId (string_map lower s);
  field_name_ok := fun s => negb (String.eqb s "") && negb (String.prefix "$" s);
  array_index := fun s =>
    if negb (String.eqb s "") && string_forall is_digit s then Some (decimal 0 s) else None
|}.

(** The identifiers of the scenarios of the specification. *)
Definition id1 : string := "507f1f77bcf86cd799439011".
Definition id2 : string := "507f1f77bcf86cd799439099".

Definition env_at (t : Z) : Api.Env := Api.mkEnv t None (mkObjectId id1).

(** The body [{ name: "tea", imageUrls: [] }], and the collection after
    [app.post] has served it at time 1000 on an empty collection. *)
Definition body_tea : Doc := {[ "name" := VStr "tea"; "imageUrls" := VArr [] ]}.

Definition created : Mongo.Collection :=
  (Api.run (Api.post_product body_tea) (env_at 1000) []).1.2.

(** The product this stores. *)
Definition ratings0 : Doc :=
  {[ "nifar" := VNum 0%float; "afia" := VNum 0%float;
     "sijil" := VNum 0%float; "naim" := VNum 0%float ]}.

Definition tea : Doc :=
  {[ "_id" := VObjectId (mkObjectId id1);
     "name" := VStr "tea";
     "imageUrls" := VArr [];
     "ratings" := VDoc ratings0;
     "comment" := VStr "";
     "createdAt" := VDate 1000 ]}.

(** [tea] after [{ "ratings.nifar": 5 }] and after [{ "ratings.bob": 5 }],
    each applied at time 2000. *)
Definition tea_rated : Doc :=
  <["lastModifiedAt" := VDate 2000]>
    (<["ratings" := VDoc (<["nifar" := VNum 5%float]> ratings0)]> tea).

Definition tea_bob : Doc :=
  <["lastModifiedAt" := VDate 2000]>
    (<["ratings" := VDoc (<["bob" := VNum 5%float]> ratings0)]> tea).

(** A request during which the store has lost its connection. *)
Definition lost : Exn := ThrownError (mkError false None "connection lost").

Definition env_lost : Api.Env := Api.mkEnv 2000 (Some lost) (mkObjectId id1).

End Sample.

(** ** The rest of [src/api/index.ts] *)

(** *** The CORS origin callback *)

Module Cors.

Definition allowedOrigins : list string :=
  [ "https://bepshapati.vercel.app/"; "http://localhost:5173" ].

(** What the callback is called with: [callback(null, true)] or
    [callback(new Error(...))]. *)
Inductive Verdict : Type :=
| Allow
| Refuse (err : JsError).

(** [!origin] for [origin : string | undefined]. *)
Definition absent (o : option string) : bool :=
  match o with
  | None => true
  | Some s => String.eqb s ""
  end.

(** [allowedOrigins.includes(origin)]. *)
Definition includes (l : list string) (s : string) : bool :=
  existsb (String.eqb s) l.

(** [corsOptions.origin]. *)
Definition origin (o : option string) : Verdict :=
  if absent o then Allow
  else if includes allowedOrigins (default "" o) then Allow
  else Refuse (mkError false None "Not allowed by CORS").

(** The last character of a string is ['/']. *)
Fixpoint ends_with_slash (s : string) : bool :=
  match s with
  | EmptyString => false
  | String c EmptyString => Ascii.eqb c "/"%char
  | String _ rest => ends_with_slash rest
  end.

End Cors.

(** *** The lazy connection: [ensureDBConnected] and [handler] *)

(** [connectToDB] ([db.ts]) is taken for what it does to the process: it
    either connects, or logs the failure and ends the process with
    [process.exit(1)]. The Express application [app] is taken for the fact
    that it is handed the request. *)
Module Boot.

Section Handler.
Context {Req : Type}.

Inductive Step : Type :=
| Connected
| Served (req : Req).

(** The module variable [dbConnected] and what the process has done so
    far. *)
Record Process : Type := mkProcess {
  dbConnected : bool;
  history : list Step
}.

Definition start : Process := mkProcess false [].

(** [await connectToDB()], [reachable] telling whether the store can be
    reached now; [None] is the end of the process. *)
Definition connectToDB (reachable : bool) (p : Process) : option Process :=
  if reachable then Some (mkProcess (dbConnected p) (history p ++ [Connected]))
  else None.

Definition ensureDBConnected (reachable : bool) (p : Process) : option Process :=
  if negb (dbConnected p) then
    p' ← connectToDB reachable p;
    Some (mkProcess true (history p'))
  else Some p.

(** [app(req, res)]. *)
Definition app (req : Req) (p : Process) : Process :=
  mkProcess (dbConnected p) (history p ++ [Served req]).

(** The exported [handler]. *)
Definition handler (reachable : bool) (req : Req) (p : Process) : option Process :=
  p' ← ensureDBConnected reachable p;
  Some (app req p').

(** Requests handled one after the other, each with the state of the
    network at its time. *)
Fixpoint serve (calls : list (bool * Req)) (p : Process) : option Process :=
  match calls with
  | [] => Some p
  | (reachable, req) :: more => p' ← handler reachable req p; serve more p'
  end.

End Handler.

End Boot.

(** *** The routes that read *)

(** What else the platform decides: the JavaScript built-ins that turn
    values into strings, and whether a stored document satisfies a query
    filter. *)
Class Host : Type := {
  (** [date.toISOString()] for the date of a time value; [None] is the
      [RangeError] of an invalid date. *)
  Date_toISOString : Z -> option string;
  (** [v.toString()] for a value that is neither [null], [undefined] nor an
      [ObjectId]. *)
  Value_toString : Value -> string;
  (** Whether a document satisfies a filter, as [findOne(filter)] decides
      it. *)
  filter_matches : Doc -> Doc -> bool
}.

Module Site.
Import Mongo Api.

(** The two collections of the database [bepshapati]. *)
Record Db : Type := mkDb {
  db_products : Collection;
  db_users : Collection
}.

(** The routes below only read: a computation has the environment of the
    request and the database, and returns or throws. *)
Definition Q (A : Type) : Type := Env -> Db -> Exn + A.

#[global] Instance Q_ret : MRet Q := fun _ x _ _ => inr x.
#[global] Instance Q_bind : MBind Q := fun _ _ f m env db =>
  match m env db with
  | inl e => inl e
  | inr x => f x env db
  end.

(** [try { body } catch (error) { handler }]. *)
Definition try_catch {A : Type} (body : Q A) (handler : Exn -> Q A) : Q A :=
  fun env db =>
    match body env db with
    | inl e => handler e env db
    | inr x => inr x
    end.

Definition throw {A : Type} (e : Exn) : Q A := fun _ _ => inl e.

(** A response whose body may be any JSON value (the list routes answer
    with an array). *)
Record Reply : Type := mkReply { reply_status : nat; reply_body : Value }.

Definition reply (s : nat) (b : Value) : Q Reply := mret (mkReply s b).

Definition reply_error (s : nat) (msg : string) : Q Reply :=
  reply s (VDoc (error_body msg)).

(** [await db.collection(name).find().toArray()]. *)
Definition find_toArray (coll : Db -> Collection) : Q (list Doc) :=
  fun env db => settle env (inr (coll db)).

(** [await db.collection(name).findOne(filter)]: the first document that
    satisfies the filter, or [null]. *)
Definition findOne (coll : Db -> Collection) (test : Doc -> bool) : Q (option Doc) :=
  fun env db => settle env (inr (List.find test (coll db))).

(** The [catch] clause that the four routes share. *)
Definition report (error : Exn) : Q Reply :=
  match error with
  | ThrownError e => reply_error 500 (err_message e)
  | ThrownValue _ => reply_error 500 "An unknown error occurred"
  end.

(** [throw new TypeError(msg)], or another built-in error: an [Error] that
    is no [MongoServerError]. *)
Definition builtin_error (msg : string) : Exn := ThrownError (mkError false None msg).

Section WithPlatform.
Context `{Platform} `{Host}.

(** [v?.toString()]. *)
Definition opt_toString (v : Value) : Value :=
  match v with
  | VUndefined | VNull => VUndefined
  | VObjectId o => VStr (oid_hex o)
  | _ => VStr (Value_toString v)
  end.

(** [v?.toISOString()]: [undefined] for [null] and [undefined], the ISO
    string of a valid date; a value of any other kind has no such method, and
    the call throws. *)
Definition opt_toISOString (v : Value) : Q Value :=
  match v with
  | VUndefined | VNull => mret VUndefined
  | VDate t =>
      match Date_toISOString t with
      | Some s => mret (VStr s)
      | None => throw (builtin_error "Invalid time value")
      end
  | _ => throw (builtin_error "product.createdAt?.toISOString is not a function")
  end.


(** [app.get("/api/products/:id")]. *)
Definition get_product (productIdStr : string) : Q Reply :=
  try_catch
    (if negb (ObjectId_isValid productIdStr) then
       reply_error 400 "Invalid product ID format"
     else
       product ← findOne db_products (has_id (ObjectId_new productIdStr));
       match product with
       | None => reply_error 404 "Product not found"
       | Some p =>
           createdAt ← opt_toISOString (prop p "createdAt");
           reply 200 (VDoc (<["createdAt" := createdAt]>
                              (<["_id" := opt_toString (prop p "_id")]> p)))
       end)
    report.

(** [app.get("/api/users")]. *)
Definition get_users : Q Reply :=
  try_catch
    (users ← find_toArray db_users;
     reply 200 (VArr (VDoc <$> users)))
    report.

(** [app.post("/api/login")]. *)
Definition post_login (body : Doc) : Q Reply :=
  try_catch
    (let username := prop body "username" in
     let password := prop body "password" in
     user ← findOne db_users
              (filter_matches {[ "_id" := username; "password" := password ]});
     match user with
     | None => reply_error 401 "Invalid credentials"
     | Some u =>
         reply 200 (VDoc
           {[ "message" := VStr "Login successful";
              "user" := VDoc {[ "username" := prop u "_id";
                                "name" := prop u "name";
                                "role" := prop u "role" ]} ]})
     end)
    report.

End WithPlatform.

(** The product that [app.post] builds from a request body at time
    [now]. *)
Definition new_product (body : Doc) (now : Z) : Doc :=
  {[ "name" := prop body "name";
     "imageUrls" := prop body "imageUrls";
     "ratings" := VDoc
       {[ "nifar" := js_or (opt_member (prop body "ratings") "nifar") (VNum 0%float);
          "afia" := js_or (opt_member (prop body "ratings") "afia") (VNum 0%float);
          "sijil" := js_or (opt_member (prop body "ratings") "sijil") (VNum 0%float);
          "naim" := js_or (opt_member (prop body "ratings") "naim") (VNum 0%float) ]};
     "comment" := js_or (prop body "comment") (VStr "");
     "createdAt" := VDate now ]}.

(** A stored [createdAt] that [toISOString] cannot be called on: anything
    but [null], [undefined] and a date. *)
Definition not_a_date (v : Value) : bool :=
  match v with
  | VUndefined | VNull | VDate _ => false
  | _ => true
  end.

End Site.

(** *** The concrete platform, continued *)

Module SampleSite.
Import Sample.

(** [n] decimal digits of [z], the most significant first. *)
Fixpoint digits (n : nat) (z : Z) : string :=
  match n with
  | O => ""
  | S n' => digits n' (z / 10) +:+ String (ascii_of_nat (48 + Z.to_nat (z mod 10))) ""
  end.

(** The year, month and day of a day number counted from 1970-01-01. *)
Definition civil (day : Z) : Z * Z * Z :=
  let z := (day + 719468)%Z in
  let era := (z / 146097)%Z in
  let doe := (z - era * 146097)%Z in
  let yoe := ((doe - doe / 1460 + doe / 36524 - doe / 146096) / 365)%Z in
  let doy := (doe - (365 * yoe + yoe / 4 - yoe / 100))%Z in
  let mp := ((5 * doy + 2) / 153)%Z in
  let d := (doy - (153 * mp + 2) / 5 + 1)%Z in
  let m := (if (mp <? 10)%Z then mp + 3 else mp - 9)%Z in
  let y := (yoe + era * 400 + (if (m <=? 2)%Z then 1 else 0))%Z in
  (y, m, d).

Definition year_string (y : Z) : string :=
  if ((0 <=? y) && (y <=? 9999))%Z then digits 4 y
  else if (y <? 0)%Z then "-" +:+ digits 6 (- y)
  else "+" +:+ digits 6 y.

Definition iso (t : Z) : option string :=
  if ((-8640000000000000 <=? t) && (t <=? 8640000000000000))%Z then
    let '(y, m, d) := civil (t / 86400000) in
    let ms := (t mod 86400000)%Z in
    Some (year_string y +:+ "-" +:+ digits 2 m +:+ "-" +:+ digits 2 d +:+ "T" +:+
          digits 2 (ms / 3600000) +:+ ":" +:+ digits 2 (ms / 60000 mod 60) +:+ ":" +:+
          digits 2 (ms / 1000 mod 60) +:+ "." +:+ digits 3 (ms mod 1000) +:+ "Z")
  else None.

(** A filter of string fields is satisfied by a document that has each of
    them with the same string; the scenarios use no other filter. *)
Definition string_fields_match (filter d : Doc) : bool :=
  forallb (fun kv : string * Value =>
             match kv.2, d !! kv.1 with
             | VStr a, Some (VStr b) => String.eqb a b
             | _, _ => false
             end)
          (map_to_list filter).

Definition host : Host := {|
  Date_toISOString := iso;
  Value_toString := fun v => match v with VStr s => s | _ => "[object Object]" end;
  filter_matches := string_fields_match
|}.

(** A user as the [users] collection holds it. *)
Definition amin : Doc :=
  {[ "_id" := VStr "amin"; "password" := VStr "s3cret";
     "name" := VStr "Amin"; "role" := VStr "admin" ]}.

(** [tea] after the comment-only update [{ comment: "great" }] at time
    2000. *)
Definition tea_commented : Doc :=
  <["lastModifiedAt" := VDate 2000]> (<["comment" := VStr "great"]> tea).

End SampleSite.

(** * Properties *)

Import Mongo Api.

(** Closed equations are settled by evaluation in the virtual machine. *)
Ltac vm_refl :=
  lazymatch goal with
  | |- @eq ?T ?a ?b => exact (@eq_refl T b <: a = b)
  end.

(** ** Paths *)

Lemma split_path_nonempty key : split_path key <> [].
Proof.
  destruct key as [|c rest]; simpl; [done|].
  destruct (Ascii.eqb c "."); [done|].
  by destruct (split_path rest).
Qed.

Lemma join_path_cons x y ys :
  join_path (x :: y :: ys) = x +:+ "." +:+ join_path (y :: ys).
Proof. done. Qed.

Lemma join_split key : join_path (split_path key) = key.
Proof.
  induction key as [|c rest IH]; [done|]. cbn [split_path].
  destruct (split_path rest) as [|x xs] eqn:Hs; [by apply split_path_nonempty in Hs|].
  destruct (Ascii.eqb c ".") eqn:Hc.
  - apply Ascii.eqb_eq in Hc as ->. by rewrite join_path_cons, IH.
  - destruct xs as [|y ys].
    + simpl in *. by rewrite IH.
    + rewrite join_path_cons. rewrite join_path_cons in IH. by rewrite <- IH.
Qed.

Lemma split_path_inj k1 k2 : split_path k1 = split_path k2 -> k1 = k2.
Proof. intros Heq. by rewrite <- (join_split k1), <- (join_split k2), Heq. Qed.

Lemma keys_elem (o : Doc) k : k ∈ keys o <-> is_Some (o !! k).
Proof.
  unfold keys. rewrite list_elem_of_fmap. split.
  - intros [[k' v] [-> Hin]]. apply elem_of_map_to_list in Hin. by exists v.
  - intros [v Hv]. exists (k, v). split; [done|]. by apply elem_of_map_to_list.
Qed.

(** In a conflict-free update, a path that is not the one-component path
    [k] does not start at [k] either. *)
Lemma conflict_free_head paths k p :
  conflict_free paths = true -> [k] ∈ paths -> p ∈ paths -> p <> [k] ->
  head p <> Some k.
Proof.
  unfold conflict_free. rewrite forallb_forall. intros Hfree Hk Hp Hne Hhead.
  apply list_elem_of_In in Hk, Hp.
  specialize (Hfree _ Hk). rewrite forallb_forall in Hfree.
  specialize (Hfree _ Hp). unfold conflict in Hfree.
  apply negb_true_iff, andb_false_iff in Hfree as [Hf|Hf];
    apply bool_decide_eq_false in Hf; apply Hf.
  - congruence.
  - destruct p as [|x xs]; [done|]. simpl in Hhead. injection Hhead as ->.
    by exists xs.
Qed.

(** ** The store *)

Section StoreFacts.
Context `{Platform}.

(** A field of the document that the path does not start at is left as it
    was, and so is [_id] in every case. *)
Lemma set_field_frame oid key v d d' f :
  set_field oid key v d = inr d' ->
  f = "_id" \/ head (split_path key) <> Some f ->
  d' !! f = d !! f.
Proof.
  unfold set_field. intros Hset Hf.
  destruct (split_path key) as [|k rest]; [done|].
  destruct (String.eqb_spec k "_id") as [->|Hk].
  - destruct rest; [|done]. destruct v; try done.
    case_bool_decide; [|done]. by injection Hset as <-.
  - destruct (set_path rest v (default (VDoc ∅) (d !! k))) as [e|child]; [done|].
    simpl in Hset. injection Hset as <-.
    apply lookup_insert_ne. destruct Hf as [->|Hf]; [done|].
    simpl in Hf. congruence.
Qed.

Lemma set_fields_frame oid fields f : forall d d',
  set_fields oid fields d = inr d' ->
  f = "_id" \/ Forall (fun kv => head (split_path kv.1) <> Some f) fields ->
  d' !! f = d !! f.
Proof.
  induction fields as [|[key v] more IH]; intros d d' Hset Hf; simpl in Hset.
  - by injection Hset as <-.
  - destruct (set_field oid key v d) as [e|d1] eqn:H1; [done|]. simpl in Hset.
    rewrite (IH _ _ Hset).
    + eapply set_field_frame; [done|].
      destruct Hf as [->|Hf]; [by left|right]. by inversion Hf.
    + destruct Hf as [->|Hf]; [by left|right]. by inversion Hf.
Qed.

Lemma set_field_top oid key v d :
  split_path key = [key] -> key <> "_id" ->
  set_field oid key v d = inr (<[key := v]> d).
Proof.
  unfold set_field. intros -> Hk.
  by destruct (String.eqb_spec key "_id").
Qed.

Lemma set_fields_top oid k v : forall fields d d',
  set_fields oid fields d = inr d' ->
  NoDup fields.*1 -> (k, v) ∈ fields ->
  split_path k = [k] -> k <> "_id" ->
  (forall k' v', (k', v') ∈ fields -> k' <> k -> head (split_path k') <> Some k) ->
  d' !! k = Some v.
Proof.
  induction fields as [|[k0 v0] more IH]; intros d d' Hset Hnd Hin Hk Hid Hothers.
  - by apply elem_of_nil in Hin.
  - simpl in Hset. destruct (set_field oid k0 v0 d) as [e|d1] eqn:H1; [done|].
    simpl in Hset. apply NoDup_cons in Hnd as [Hk0 Hnd].
    destruct (decide (k0 = k)) as [->|Hne].
    + assert (v0 = v) as ->.
      { apply elem_of_cons in Hin as [Heq|Hin]; [congruence|].
        exfalso. apply Hk0. apply list_elem_of_fmap. by exists (k, v). }
      rewrite set_field_top in H1 by done. injection H1 as <-.
      rewrite (set_fields_frame _ _ k _ _ Hset); [apply lookup_insert_eq|].
      right. apply Forall_forall. intros [k' v'] Hin'. simpl.
      apply (Hothers k' v'); [by right|]. intros ->. apply Hk0.
      apply list_elem_of_fmap. by exists (k, v').
    + apply elem_of_cons in Hin as [Heq|Hin]; [congruence|].
      eapply IH; try done. intros k' v' Hin'. apply (Hothers k' v'). by right.
Qed.

(** A field with an undotted name is stored as given. *)
Lemma apply_set_top oid fields d d' k v :
  valid_update fields = true -> apply_set oid fields d = inr d' ->
  fields !! k = Some v -> split_path k = [k] -> k <> "_id" ->
  d' !! k = Some v.
Proof.
  unfold valid_update, apply_set. intros Hvalid Hset Hkv Hk Hid.
  apply andb_true_iff in Hvalid as [_ Hfree].
  eapply set_fields_top; try done.
  - apply NoDup_fst_map_to_list.
  - by apply elem_of_map_to_list.
  - intros k' v' Hin Hne. apply elem_of_map_to_list in Hin.
    eapply conflict_free_head; [done| | |].
    + rewrite <- Hk. apply list_elem_of_fmap. exists k. split; [done|].
      apply keys_elem. by exists v.
    + apply list_elem_of_fmap. exists k'. split; [done|].
      apply keys_elem. by exists v'.
    + rewrite <- Hk. intros Heq. by apply split_path_inj in Heq.
Qed.

(** [update_first] either finds no document with the identifier, or
    rewrites the first one that has it and nothing else. *)
Lemma update_first_None oid f c :
  Forall (fun d => has_id oid d = false) c -> update_first oid f c = inr None.
Proof.
  induction 1 as [|d c Hd _ IH]; simpl; [done|]. by rewrite Hd, IH.
Qed.

Lemma update_first_hit oid f pre d d' post :
  Forall (fun d => has_id oid d = false) pre ->
  has_id oid d = true -> f d = inr d' ->
  update_first oid f (pre ++ d :: post) = inr (Some (pre ++ d' :: post)).
Proof.
  intros Hpre Hd Hf. induction Hpre as [|x pre Hx _ IH]; simpl.
  - by rewrite Hd, Hf.
  - by rewrite Hx, IH.
Qed.

Lemma update_first_inv oid f : forall c r,
  update_first oid f c = inr r ->
  match r with
  | None => Forall (fun d => has_id oid d = false) c
  | Some c' => exists pre d d' post,
      c = pre ++ d :: post /\ c' = pre ++ d' :: post /\
      Forall (fun d => has_id oid d = false) pre /\
      has_id oid d = true /\ f d = inr d'
  end.
Proof.
  induction c as [|x c IH]; intros r Hr; simpl in Hr.
  - injection Hr as <-. constructor.
  - destruct (has_id oid x) eqn:Hx.
    + destruct (f x) as [e|x'] eqn:Hf; [done|]. simpl in Hr. injection Hr as <-.
      by exists [], x, x', c.
    + destruct (update_first oid f c) as [e|r'] eqn:Hc; [done|].
      simpl in Hr. injection Hr as <-. specialize (IH _ eq_refl).
      destruct r' as [c'|]; simpl.
      * destruct IH as (pre & d & d' & post & -> & -> & Hpre & Hd & Hf).
        exists (x :: pre), d, d', post. repeat split; try done. by constructor.
      * by constructor.
Qed.

(** The store changes a collection only when the update resolves, and
    then only the first document with the identifier. *)
Lemma updateOne_inv c oid fields res c' :
  updateOne c oid fields = inr (res, c') ->
  valid_update fields = true /\
  ((matchedCount res = 0 /\ c' = c /\ Forall (fun d => has_id oid d = false) c) \/
   (matchedCount res = 1 /\ exists pre d d' post,
      c = pre ++ d :: post /\ c' = pre ++ d' :: post /\
      Forall (fun d => has_id oid d = false) pre /\
      has_id oid d = true /\ apply_set oid fields d = inr d')).
Proof.
  unfold updateOne. destruct (valid_update fields); [simpl|done].
  destruct (update_first oid (apply_set oid fields) c) as [e|r] eqn:Hr; [done|].
  simpl. apply update_first_inv in Hr. intros Heq. split; [done|].
  destruct r as [c1|]; injection Heq as <- <-; [right|left]; by simpl.
Qed.

(** The [$set] document of the comment branch. *)
Lemma comment_set_list (a b : Value) :
  map_to_list ({[ "comment" := a; "lastModifiedAt" := b ]} : Doc) =
    [("comment", a); ("lastModifiedAt", b)].
Proof. vm_refl. Qed.

Lemma comment_set_valid (a b : Value) :
  field_name_ok "comment" = true -> field_name_ok "lastModifiedAt" = true ->
  valid_update {[ "comment" := a; "lastModifiedAt" := b ]} = true.
Proof.
  intros Hc Hl. unfold valid_update, keys. rewrite comment_set_list.
  cbn. by rewrite Hc, Hl.
Qed.

Lemma comment_set_apply oid (a b : Value) (d : Doc) :
  apply_set oid {[ "comment" := a; "lastModifiedAt" := b ]} d =
    inr (<["lastModifiedAt" := b]> (<["comment" := a]> d)).
Proof.
  unfold apply_set. rewrite comment_set_list. cbn [set_fields].
  rewrite set_field_top by done. cbn [mbind result_bind].
  by rewrite set_field_top.
Qed.

End StoreFacts.

(** ** The update route, branch by branch *)

Lemma set_document_None now updates :
  set_document now updates = None <-> mode_of updates = Rejected.
Proof. unfold set_document. by destruct (mode_of updates). Qed.

Lemma set_document_time now updates sd :
  set_document now updates = Some sd ->
  sd !! "lastModifiedAt" = Some (VDate now).
Proof.
  unfold set_document. destruct (mode_of updates); intros Hsd; try done;
    injection Hsd as <-.
  - rewrite lookup_insert_ne by done. apply lookup_insert_eq.
  - apply lookup_insert_eq.
Qed.

(** The names in the [$set] document of either mode. *)
Lemma set_document_keys now updates sd k :
  set_document now updates = Some sd -> k ∈ keys sd ->
  k = "lastModifiedAt" \/
  (mode_of updates = CommentOnly /\ k = "comment") \/
  (mode_of updates = RatingsMode /\ k ∈ keys updates).
Proof.
  unfold set_document. destruct (mode_of updates); intros Hsd Hk; try done;
    injection Hsd as <-.
  - unfold keys in Hk. rewrite comment_set_list in Hk. simpl in Hk.
    apply elem_of_cons in Hk as [->|Hk]; [by right; left|].
    apply elem_of_cons in Hk as [->|Hk]; [by left|]. by apply elem_of_nil in Hk.
  - apply keys_elem in Hk. apply lookup_insert_is_Some in Hk as [<-|[_ Hk]]; [by left|].
    right; right. split; [done|]. by apply keys_elem.
Qed.

Lemma mode_without_comment_or_rating (updates : Doc) :
  updates !! "comment" = None ->
  (forall k, k ∈ keys updates -> startsWith "ratings." k = false) ->
  mode_of updates = Rejected.
Proof.
  intros Hc Hr. unfold mode_of, comment_guard, isUpdatingRatings, prop.
  rewrite Hc. simpl.
  destruct (existsb _ _) eqn:Hex; [|done].
  apply existsb_exists in Hex as (k & Hin & Hk).
  apply list_elem_of_In in Hin. by rewrite (Hr k Hin) in Hk.
Qed.

Section HandlerFacts.
Context `{Platform}.

Lemma run_put_invalid id updates env c :
  ObjectId_isValid id = false ->
  run (put_product id updates) env c =
    (inr (mkResponse 400 (error_body "Invalid product ID format")), c, []).
Proof.
  intros Hid. unfold run, put_product, try_catch. by rewrite Hid.
Qed.

Lemma run_put_rejected id updates env c :
  ObjectId_isValid id = true -> mode_of updates = Rejected ->
  run (put_product id updates) env c =
    (inr (mkResponse 400 (error_body "Rating is required for product updates")), c, []).
Proof.
  intros Hid Hmode. unfold run, put_product, try_catch, mode_of in *. rewrite Hid.
  destruct (comment_guard updates); [done|].
  by destruct (isUpdatingRatings updates).
Qed.

(** In the two modes that reach the store, exactly one [updateOne] is
    issued, with the [$set] document of the mode, and the response follows
    its outcome. *)
Lemma run_put_sent id updates env c sd :
  ObjectId_isValid id = true ->
  set_document (env_now env) updates = Some sd ->
  run (put_product id updates) env c =
    match settle env (updateOne c (ObjectId_new id) sd) with
    | inl _ =>
        (inr (mkResponse 500 (error_body "Internal server error")), c,
         [OpUpdateOne (ObjectId_new id) sd])
    | inr (res, c') =>
        (inr (if Nat.eqb (matchedCount res) 0
              then mkResponse 404 (error_body "Product not found")
              else mkResponse 200 {[ "message" := VStr (success_message updates);
                                     "product" := VDoc sd ]}),
         c', [OpUpdateOne (ObjectId_new id) sd])
    end.
Proof.
  intros Hid Hsd.
  unfold run, put_product, try_catch, set_document, mode_of, success_message in *.
  rewrite Hid. simpl.
  destruct (comment_guard updates).
  - injection Hsd as <-.
    unfold mbind, M_bind, new_Date, await_updateOne. simpl.
    destruct (settle env _) as [e|[res c']]; simpl; [done|].
    by destruct (Nat.eqb (matchedCount res) 0).
  - destruct (isUpdatingRatings updates); [|done]. injection Hsd as <-. simpl.
    unfold mbind, M_bind, new_Date, await_updateOne. simpl.
    destruct (settle env _) as [e|[res c']]; simpl; [done|].
    by destruct (Nat.eqb (matchedCount res) 0).
Qed.

(** An update leaves the collection as it was, or rewrites one document by
    applying the [$set] document of its mode to it. *)
Lemma run_put_collection id updates env c :
  (run (put_product id updates) env c).1.2 = c \/
  exists sd pre d d' post,
    set_document (env_now env) updates = Some sd /\
    c = (pre ++ d :: post)%list /\
    (run (put_product id updates) env c).1.2 = (pre ++ d' :: post)%list /\
    apply_set (ObjectId_new id) sd d = inr d'.
Proof.
  destruct (ObjectId_isValid id) eqn:Hid.
  2:{ left. by rewrite run_put_invalid. }
  destruct (set_document (env_now env) updates) as [sd|] eqn:Hsd.
  2:{ left. apply set_document_None in Hsd. by rewrite run_put_rejected. }
  rewrite (run_put_sent _ _ _ _ _ Hid Hsd).
  destruct (settle env _) as [e|[res c1]] eqn:Hstore; [by left|].
  unfold settle in Hstore. destruct (env_fault env); [done|].
  apply updateOne_inv in Hstore as [_ [(_ & -> & _)|(_ & Hhit)]]; [by left|].
  destruct Hhit as (pre & d & d' & post & -> & -> & _ & _ & Hset).
  right. by exists sd, pre, d, d', post.
Qed.

(** A field that no path of the [$set] document starts at has, in every
    product, the value it had; [_id] has it whatever the paths. *)
Lemma run_put_frame id updates env c f :
  f = "_id" \/
  (forall sd k, set_document (env_now env) updates = Some sd -> k ∈ keys sd ->
     head (split_path k) <> Some f) ->
  (fun d : Doc => d !! f) <$> (run (put_product id updates) env c).1.2 =
  (fun d : Doc => d !! f) <$> c.
Proof.
  intros Hf.
  destruct (run_put_collection id updates env c)
    as [->|(sd & pre & d & d' & post & Hsd & -> & -> & Hset)]; [done|].
  rewrite !fmap_app, !fmap_cons. do 2 f_equal.
  eapply set_fields_frame; [exact Hset|].
  destruct Hf as [->|Hf]; [by left|right].
  apply Forall_forall. intros [k v] Hin. simpl.
  apply (Hf sd k Hsd). apply list_elem_of_fmap. by exists (k, v).
Qed.

(** Ratings mode, when it is reached: the whole update document goes to
    the store with [lastModifiedAt] added, a successful response returns it,
    and each of its undotted fields is then what the updated product
    holds. *)
Lemma run_put_ratings_mode id updates env c :
  ObjectId_isValid id = true ->
  comment_guard updates = false ->
  isUpdatingRatings updates = true ->
  let sd : Doc := <["lastModifiedAt" := VDate (env_now env)]> updates in
  let out := run (put_product id updates) env c in
  out.2 = [OpUpdateOne (ObjectId_new id) sd] /\
  forall resp, out.1.1 = inr resp -> status resp = 200 ->
    body resp = {[ "message" := VStr "Product updated successfully";
                   "product" := VDoc sd ]} /\
    exists pre d d' post,
      c = (pre ++ d :: post)%list /\ out.1.2 = (pre ++ d' :: post)%list /\
      has_id (ObjectId_new id) d = true /\
      forall k v, sd !! k = Some v -> split_path k = [k] -> k <> "_id" ->
                  d' !! k = Some v.
Proof.
  intros Hid Hg Hr sd out.
  assert (set_document (env_now env) updates = Some sd) as Hsd.
  { unfold set_document, mode_of. by rewrite Hg, Hr. }
  unfold out. rewrite (run_put_sent _ _ _ _ _ Hid Hsd).
  unfold success_message. rewrite Hg.
  destruct (settle env _) as [e|[res c1]] eqn:Hstore; simpl.
  { split; [done|]. intros resp Hresp. by injection Hresp as <-. }
  split; [done|]. intros resp Hresp Hok. injection Hresp as <-.
  destruct (Nat.eqb (matchedCount res) 0) eqn:Hm; [done|]. split; [done|].
  unfold settle in Hstore. destruct (env_fault env); [done|].
  apply updateOne_inv in Hstore as [Hvalid [(H0 & _)|(_ & Hhit)]].
  { by rewrite H0 in Hm. }
  destruct Hhit as (pre & d & d' & post & -> & -> & _ & Hd & Hset).
  exists pre, d, d', post. repeat split; try done.
  intros k v Hkv Hk Hne. by eapply apply_set_top.
Qed.

End HandlerFacts.

(** ** The shape of [ratings] *)

Lemma created_ratings_dom (a b c d : Value) :
  dom ({[ "nifar" := a; "afia" := b; "sijil" := c; "naim" := d ]} : Doc) = reviewers.
Proof.
  unfold reviewers. rewrite !dom_insert_L, dom_singleton_L. set_solver.
Qed.

(** What [app.post] does to the collection: nothing, or one more product,
    whose [ratings] has the four reviewer keys. *)
Lemma run_post_collection body env c :
  (run (post_product body) env c).1.2 = c \/
  exists product,
    (run (post_product body) env c).1.2 = (c ++ [product])%list /\
    ratings_shape product.
Proof.
  unfold run, post_product, try_catch.
  destruct (negb _ || negb _); [by left|].
  unfold mbind, M_bind, new_Date, await_insertOne. simpl.
  destruct (settle env _) as [e|[oid c1]] eqn:Hstore; simpl.
  - left. destruct e as [e|v]; [|done].
    by destruct (is_MongoServerError e && _).
  - unfold settle in Hstore. destruct (env_fault env); [done|].
    unfold insertOne in Hstore. destruct (existsb _ c); [done|].
    injection Hstore as <- <-. right. eexists. split; [done|].
    eexists. split; [|apply created_ratings_dom].
    by simplify_map_eq.
Qed.

Section RatingsFacts.
Context `{Platform}.

Lemma set_field_ratings oid key v d d' :
  set_field oid key v d = inr d' ->
  reviewer_path (split_path key) = true ->
  ratings_shape d -> ratings_shape d'.
Proof.
  intros Hset Hpath (m & Hm & Hdom).
  destruct (decide (head (split_path key) = Some "ratings")) as [Hhead|Hhead].
  - unfold set_field in Hset. unfold reviewer_path in Hpath.
    destruct (split_path key) as [|k rest]; [done|].
    simpl in Hhead. injection Hhead as ->. simpl in Hset, Hpath.
    destruct rest as [|r rest]; [done|]. apply bool_decide_eq_true in Hpath.
    rewrite Hm in Hset. simpl in Hset.
    destruct (set_path rest v (default (VDoc ∅) (m !! r))) as [e|child]; [done|].
    simpl in Hset. injection Hset as <-.
    eexists. split; [apply lookup_insert_eq|].
    rewrite dom_insert_L, Hdom. apply subseteq_union_1_L.
    by apply singleton_subseteq_l.
  - exists m. split; [|done]. rewrite <- Hm.
    eapply set_field_frame; [done|]. by right.
Qed.

Lemma set_fields_ratings oid fields : forall d d',
  set_fields oid fields d = inr d' ->
  Forall (fun kv => reviewer_path (split_path kv.1) = true) fields ->
  ratings_shape d -> ratings_shape d'.
Proof.
  induction fields as [|[key v] more IH]; intros d d' Hset Hall Hd; simpl in Hset.
  - by injection Hset as <-.
  - destruct (set_field oid key v d) as [e|d1] eqn:H1; [done|]. simpl in Hset.
    inversion Hall; subst. eapply IH; [done|done|].
    by eapply set_field_ratings.
Qed.

Lemma run_put_ratings_shape id updates env c :
  reviewer_fields updates ->
  Forall ratings_shape c ->
  Forall ratings_shape (run (put_product id updates) env c).1.2.
Proof.
  intros Hok Hc.
  destruct (run_put_collection id updates env c)
    as [->|(sd & pre & d & d' & post & Hsd & -> & -> & Hset)]; [done|].
  apply Forall_app in Hc as [Hpre Hc]. apply Forall_cons in Hc as [Hd Hpost].
  apply Forall_app. split; [done|]. apply Forall_cons. split; [|done].
  eapply set_fields_ratings; [exact Hset| |done].
  apply Forall_forall. intros [k v] Hin. simpl.
  assert (k ∈ keys sd) as Hk by (apply list_elem_of_fmap; by exists (k, v)).
  destruct (set_document_keys _ _ _ _ Hsd Hk) as [->|[[_ ->]|[Hmode Hin']]];
    [done|done|by apply Hok].
Qed.

End RatingsFacts.

(** ** The update route: what the specification says of it *)

Section UpdateRoute.
Context `{Platform}.

(** C7: an identifier that is not well formed is answered with 400
    "Invalid product ID format", whatever the update document holds, and no
    store operation is issued. *)
Theorem put_invalid_identifier
  (id : string) (updates : Doc) (env : Env) (c : Collection) :
  ObjectId_isValid id = false ->
  run (put_product id updates) env c =
    (inr (mkResponse 400 (error_body "Invalid product ID format")), c, []).
Proof. apply run_put_invalid. Qed.

(** C6: an update document with neither a [comment] field nor a field
    whose name starts with "ratings." (the empty one included) is answered
    with status 400, for a well-formed identifier with the message of the
    missing rating, and no store operation is issued. *)
Theorem put_missing_rating_or_comment
  (id : string) (updates : Doc) (env : Env) (c : Collection) :
  updates !! "comment" = None ->
  (forall k, k ∈ keys updates -> startsWith "ratings." k = false) ->
  exists resp,
    run (put_product id updates) env c = (inr resp, c, []) /\
    status resp = 400 /\
    (ObjectId_isValid id = true ->
     body resp = error_body "Rating is required for product updates").
Proof.
  intros Hc Hr. pose proof (mode_without_comment_or_rating _ Hc Hr) as Hmode.
  destruct (ObjectId_isValid id) eqn:Hid.
  - eexists. split; [by apply run_put_rejected|]. done.
  - eexists. split; [by apply run_put_invalid|]. done.
Qed.

(** C8: for a well-formed identifier that no stored product has, an update
    in either mode that the store accepts issues its one [updateOne], which
    matches nothing, and is answered with 404 "Product not found", which is
    not the answer to a malformed identifier; the collection is as it
    was. *)
Theorem put_not_found
  (id : string) (updates : Doc) (env : Env) (c : Collection) (sd : Doc) :
  ObjectId_isValid id = true ->
  set_document (env_now env) updates = Some sd ->
  Forall (fun d => has_id (ObjectId_new id) d = false) c ->
  env_fault env = None ->
  valid_update sd = true ->
  run (put_product id updates) env c =
    (inr (mkResponse 404 (error_body "Product not found")), c,
     [OpUpdateOne (ObjectId_new id) sd]) /\
  mkResponse 404 (error_body "Product not found") <>
    mkResponse 400 (error_body "Invalid product ID format").
Proof.
  intros Hid Hsd Hnone Hfault Hvalid. split; [|done].
  rewrite (run_put_sent _ _ _ _ _ Hid Hsd).
  unfold settle, updateOne. rewrite Hfault, Hvalid. simpl.
  by rewrite update_first_None.
Qed.

(** C9: when the store call of an update fails, whether with an [Error]
    or with any other thrown value, the answer is 500 with the fixed message
    "Internal server error"; the message of the error is not passed on. *)
Theorem put_store_failure
  (id : string) (updates : Doc) (env : Env) (c : Collection) (sd : Doc) (e : Exn) :
  ObjectId_isValid id = true ->
  set_document (env_now env) updates = Some sd ->
  settle env (updateOne c (ObjectId_new id) sd) = inl e ->
  run (put_product id updates) env c =
    (inr (mkResponse 500 (error_body "Internal server error")), c,
     [OpUpdateOne (ObjectId_new id) sd]).
Proof.
  intros Hid Hsd Hfail. by rewrite (run_put_sent _ _ _ _ _ Hid Hsd), Hfail.
Qed.

(** C10: when an update succeeds, in either mode, the [product] of the
    response is the very document that was sent as [$set] in the one store
    operation issued, and the [lastModifiedAt] in it, the time of the
    request, is what the updated product now holds. *)
Theorem put_response_is_set_document
  (id : string) (updates : Doc) (env : Env) (c c' : Collection)
  (resp : Response) (ops : list StoreOp) :
  run (put_product id updates) env c = (inr resp, c', ops) ->
  status resp = 200 ->
  exists sd,
    ops = [OpUpdateOne (ObjectId_new id) sd] /\
    body resp !! "product" = Some (VDoc sd) /\
    sd !! "lastModifiedAt" = Some (VDate (env_now env)) /\
    exists pre d d' post,
      c = (pre ++ d :: post)%list /\ c' = (pre ++ d' :: post)%list /\
      has_id (ObjectId_new id) d = true /\
      d' !! "lastModifiedAt" = Some (VDate (env_now env)).
Proof.
  intros Hrun Hok.
  destruct (ObjectId_isValid id) eqn:Hid.
  2:{ rewrite run_put_invalid in Hrun by done. by injection Hrun as <- _ _. }
  destruct (set_document (env_now env) updates) as [sd|] eqn:Hsd.
  2:{ apply set_document_None in Hsd. rewrite run_put_rejected in Hrun by done.
      by injection Hrun as <- _ _. }
  rewrite (run_put_sent _ _ _ _ _ Hid Hsd) in Hrun.
  pose proof (set_document_time _ _ _ Hsd) as Htime.
  destruct (settle env _) as [e|[res c1]] eqn:Hstore.
  { by injection Hrun as <- _ _. }
  injection Hrun as <- <- <-.
  destruct (Nat.eqb (matchedCount res) 0) eqn:Hm; [done|].
  exists sd. repeat split; try done.
  unfold settle in Hstore. destruct (env_fault env); [done|].
  apply updateOne_inv in Hstore as [Hvalid [(H0 & _)|(_ & Hhit)]].
  { rewrite H0 in Hm. done. }
  destruct Hhit as (pre & d & d' & post & -> & -> & _ & Hd & Hset).
  exists pre, d, d', post. repeat split; try done.
  by eapply apply_set_top.
Qed.

(** C1: an update document with a [comment] field and a field whose name
    starts with "ratings.", on which the test of the comment branch fails
    (the comment is falsy, or a truthy [ratings] field is there too), is
    treated in ratings mode, and its comment is not dropped: the [$set]
    document of the one store operation is the whole update document,
    comment included, with [lastModifiedAt] added, and so is the [product]
    of a successful response. *)
Theorem put_overlap_ratings_mode
  (id : string) (updates : Doc) (env : Env) (c : Collection) (v : Value) :
  ObjectId_isValid id = true ->
  updates !! "comment" = Some v ->
  isUpdatingRatings updates = true ->
  comment_guard updates = false ->
  let sd : Doc := <["lastModifiedAt" := VDate (env_now env)]> updates in
  mode_of updates = RatingsMode /\
  sd !! "comment" = Some v /\
  (run (put_product id updates) env c).2 = [OpUpdateOne (ObjectId_new id) sd] /\
  forall resp, (run (put_product id updates) env c).1.1 = inr resp ->
    status resp = 200 ->
    body resp = {[ "message" := VStr "Product updated successfully";
                   "product" := VDoc sd ]}.
Proof.
  intros Hid Hc Hr Hg sd.
  assert (mode_of updates = RatingsMode) as Hmode.
  { unfold mode_of. by rewrite Hg, Hr. }
  assert (set_document (env_now env) updates = Some sd) as Hsd.
  { unfold set_document. by rewrite Hmode. }
  split; [done|]. split.
  { unfold sd. by rewrite lookup_insert_ne. }
  rewrite (run_put_sent _ _ _ _ _ Hid Hsd). unfold success_message. rewrite Hg.
  destruct (settle env _) as [e|[res c1]]; simpl.
  - split; [done|]. intros resp Hresp. by injection Hresp as <-.
  - split; [done|]. intros resp Hresp. injection Hresp as <-.
    by destruct (Nat.eqb (matchedCount res) 0).
Qed.

(** C2: an update document whose [comment] is truthy, whose [ratings]
    field is absent or falsy and which has no field whose name starts with
    "ratings.", sent for the identifier of a stored product to a store that
    works, sets [comment] to the value given and [lastModifiedAt] to the
    time of the request in that product, leaves its other fields as they
    were, and is answered with the message "Comment updated successfully"
    and the two fields set. *)
Theorem put_comment_only
  (id : string) (updates : Doc) (env : Env) (pre post : Collection) (d : Doc) :
  ObjectId_isValid id = true ->
  truthy (prop updates "comment") = true ->
  truthy (prop updates "ratings") = false ->
  isUpdatingRatings updates = false ->
  env_fault env = None ->
  field_name_ok "comment" = true -> field_name_ok "lastModifiedAt" = true ->
  Forall (fun x => has_id (ObjectId_new id) x = false) pre ->
  has_id (ObjectId_new id) d = true ->
  let sd : Doc := {[ "comment" := prop updates "comment";
                     "lastModifiedAt" := VDate (env_now env) ]} in
  exists d',
    run (put_product id updates) env (pre ++ d :: post) =
      (inr (mkResponse 200 {[ "message" := VStr "Comment updated successfully";
                              "product" := VDoc sd ]}),
       (pre ++ d' :: post)%list,
       [OpUpdateOne (ObjectId_new id) sd]) /\
    d' !! "comment" = Some (prop updates "comment") /\
    d' !! "lastModifiedAt" = Some (VDate (env_now env)) /\
    forall f, f <> "comment" -> f <> "lastModifiedAt" -> d' !! f = d !! f.
Proof.
  intros Hid Hc Hr _ Hfault Hn1 Hn2 Hpre Hd sd.
  assert (comment_guard updates = true) as Hg.
  { unfold comment_guard. by rewrite Hc, Hr. }
  assert (set_document (env_now env) updates = Some sd) as Hsd.
  { unfold set_document, mode_of. by rewrite Hg. }
  exists (<["lastModifiedAt" := VDate (env_now env)]>
            (<["comment" := prop updates "comment"]> d)).
  split.
  - rewrite (run_put_sent _ _ _ _ _ Hid Hsd).
    unfold settle, updateOne, success_message. rewrite Hfault, Hg.
    unfold sd. rewrite comment_set_valid by done. simpl.
    rewrite (update_first_hit _ _ pre d _ post Hpre Hd (comment_set_apply _ _ _ _)).
    done.
  - split; [|split].
    + rewrite lookup_insert_ne by done. apply lookup_insert_eq.
    + apply lookup_insert_eq.
    + intros f H1 H2. by rewrite !lookup_insert_ne.
Qed.

(** C4: an update never changes the identifier of a stored product. It
    leaves [createdAt] as it was in comment-only mode, and in ratings mode
    whenever no field of the update document is [createdAt] or lies below
    it. *)
Theorem put_keeps_identifier_and_createdAt
  (id : string) (updates : Doc) (env : Env) (c : Collection) :
  let c' := (run (put_product id updates) env c).1.2 in
  (fun d : Doc => d !! "_id") <$> c' = (fun d : Doc => d !! "_id") <$> c /\
  ((mode_of updates = RatingsMode ->
    forall k, k ∈ keys updates -> head (split_path k) <> Some "createdAt") ->
   (fun d : Doc => d !! "createdAt") <$> c' = (fun d : Doc => d !! "createdAt") <$> c).
Proof.
  split.
  - apply run_put_frame. by left.
  - intros Hfree. apply run_put_frame. right. intros sd k Hsd Hk.
    destruct (set_document_keys _ _ _ _ Hsd Hk) as [->|[[_ ->]|[Hmode Hin]]];
      [done|done|by apply Hfree].
Qed.

(** C3: every product that [app.post] stores has a [ratings] object with
    exactly the four reviewer keys, and the updates keep it so as long as
    the update documents applied in ratings mode address [ratings] only
    through one of the four reviewers. *)
Theorem ratings_keys_invariant (c : Collection) :
  reachable_via reviewer_fields c -> Forall ratings_shape c.
Proof.
  induction 1 as [|env body c _ IH|env id updates c Hok _ IH].
  - constructor.
  - destruct (run_post_collection body env c) as [->|(product & -> & Hp)]; [done|].
    apply Forall_app. split; [done|]. by constructor.
  - by apply run_put_ratings_shape.
Qed.

End UpdateRoute.

(** ** The scenarios of the specification, on the concrete platform *)

Import Sample.

Lemma keys_singleton (k : string) (v : Value) : keys ({[ k := v ]} : Doc) = [k].
Proof. unfold keys. by rewrite map_to_list_singleton. Qed.

Lemma created_tea : created = [tea].
Proof. vm_refl. Qed.

(** [update("not-an-id", {comment: "x"})]. *)
Lemma put_invalid_identifier_witness :
  run (put_product (H:=platform) "not-an-id" {[ "comment" := VStr "x" ]})
      (env_at 2000) [tea] =
    (inr (mkResponse 400 (error_body "Invalid product ID format")), [tea], []).
Proof. apply (put_invalid_identifier (H:=platform)). vm_refl. Defined.

Lemma put_missing_rating_or_comment_witness :
  exists resp,
    run (put_product (H:=platform) id1 {[ "name" := VStr "chai" ]})
        (env_at 2000) [tea] = (inr resp, [tea], []) /\
    status resp = 400 /\
    (ObjectId_isValid (Platform:=platform) id1 = true ->
     body resp = error_body "Rating is required for product updates").
Proof.
  apply (put_missing_rating_or_comment (H:=platform)).
  - vm_refl.
  - intros k Hk. rewrite keys_singleton in Hk.
    apply list_elem_of_singleton in Hk. subst k. vm_refl.
Defined.

(** [update("507f1f77bcf86cd799439099", {"ratings.afia": 3})] where no
    product has the identifier. *)
Lemma put_not_found_witness :
  let updates : Doc := {[ "ratings.afia" := VNum 3%float ]} in
  let sd : Doc := <["lastModifiedAt" := VDate 2000]> updates in
  run (put_product (H:=platform) id2 updates) (env_at 2000) [tea] =
    (inr (mkResponse 404 (error_body "Product not found")), [tea],
     [OpUpdateOne (ObjectId_new (Platform:=platform) id2) sd]) /\
  mkResponse 404 (error_body "Product not found") <>
    mkResponse 400 (error_body "Invalid product ID format").
Proof.
  intros updates sd.
  apply (put_not_found (H:=platform) id2 updates (env_at 2000) [tea] sd).
  - vm_refl.
  - vm_refl.
  - repeat constructor.
  - vm_refl.
  - vm_refl.
Defined.

Lemma put_store_failure_witness :
  let updates : Doc := {[ "comment" := VStr "great" ]} in
  let sd : Doc := {[ "comment" := VStr "great"; "lastModifiedAt" := VDate 2000 ]} in
  run (put_product (H:=platform) id1 updates) env_lost [tea] =
    (inr (mkResponse 500 (error_body "Internal server error")), [tea],
     [OpUpdateOne (ObjectId_new (Platform:=platform) id1) sd]).
Proof.
  intros updates sd.
  apply (put_store_failure (H:=platform) id1 updates env_lost [tea] sd lost).
  - vm_refl.
  - vm_refl.
  - vm_refl.
Defined.

(** C9, as stated, fails: the store call rejects with an [Error] whose
    message is "connection lost", and the answer carries the fixed message,
    not that one. *)
Lemma put_store_failure_message_not_passed :
  let out := run (put_product (H:=platform) id1 {[ "comment" := VStr "great" ]})
                 env_lost [tea] in
  out.1.1 = inr (mkResponse 500 (error_body "Internal server error")) /\
  error_body "Internal server error" !! "error" <> Some (VStr (err_message
    (mkError false None "connection lost"))).
Proof.
  intros out. split; [vm_refl|].
  unfold error_body. by rewrite lookup_singleton_eq.
Qed.

(** [update("507f1f77bcf86cd799439011", {"ratings.nifar": 5})] on an
    existing record. *)
Lemma put_response_is_set_document_witness :
  let updates : Doc := {[ "ratings.nifar" := VNum 5%float ]} in
  let sd0 : Doc := <["lastModifiedAt" := VDate 2000]> updates in
  let resp := mkResponse 200 {[ "message" := VStr "Product updated successfully";
                                "product" := VDoc sd0 ]} in
  let ops := [OpUpdateOne (mkObjectId id1) sd0] in
  exists sd,
    ops = [OpUpdateOne (ObjectId_new (Platform:=platform) id1) sd] /\
    body resp !! "product" = Some (VDoc sd) /\
    sd !! "lastModifiedAt" = Some (VDate (env_now (env_at 2000))) /\
    exists pre d d' post,
      [tea] = (pre ++ d :: post)%list /\ [tea_rated] = (pre ++ d' :: post)%list /\
      has_id (ObjectId_new (Platform:=platform) id1) d = true /\
      d' !! "lastModifiedAt" = Some (VDate (env_now (env_at 2000))).
Proof.
  intros updates sd0 resp ops.
  apply (put_response_is_set_document (H:=platform) id1 updates (env_at 2000)
           [tea] [tea_rated] resp ops).
  - vm_refl.
  - vm_refl.
Defined.

Lemma put_overlap_ratings_mode_witness :
  let updates : Doc := {[ "comment" := VStr ""; "ratings.nifar" := VNum 5%float ]} in
  let env := env_at 2000 in
  let sd : Doc := <["lastModifiedAt" := VDate (env_now env)]> updates in
  mode_of updates = RatingsMode /\
  sd !! "comment" = Some (VStr "") /\
  (run (put_product (H:=platform) id1 updates) env [tea]).2 =
    [OpUpdateOne (ObjectId_new (Platform:=platform) id1) sd] /\
  forall resp,
    (run (put_product (H:=platform) id1 updates) env [tea]).1.1 = inr resp ->
    status resp = 200 ->
    body resp = {[ "message" := VStr "Product updated successfully";
                   "product" := VDoc sd ]}.
Proof.
  intros updates env.
  apply (put_overlap_ratings_mode (H:=platform) id1 updates env [tea] (VStr "")).
  - vm_refl.
  - vm_refl.
  - vm_refl.
  - vm_refl.
Defined.

(** C1, as stated, fails: with a non-empty comment next to
    "ratings.nifar" the route takes its comment branch, and what it sends to
    the store holds the comment and the time and no rating; and when the
    ratings branch is taken (here with an empty comment), the comment is
    part of what is sent. *)
Lemma put_overlap_comment_branch :
  let updates : Doc := {[ "comment" := VStr "great"; "ratings.nifar" := VNum 5%float ]} in
  let sd : Doc := {[ "comment" := VStr "great"; "lastModifiedAt" := VDate 2000 ]} in
  let updates0 : Doc := {[ "comment" := VStr ""; "ratings.nifar" := VNum 5%float ]} in
  let sd0 : Doc := <["lastModifiedAt" := VDate 2000]> updates0 in
  (updates !! "comment" = Some (VStr "great") /\
   isUpdatingRatings updates = true /\
   mode_of updates = CommentOnly /\
   run (put_product (H:=platform) id1 updates) (env_at 2000) [tea] =
     (inr (mkResponse 200 {[ "message" := VStr "Comment updated successfully";
                             "product" := VDoc sd ]}),
      [<["lastModifiedAt" := VDate 2000]> (<["comment" := VStr "great"]> tea)],
      [OpUpdateOne (mkObjectId id1) sd])) /\
  (updates0 !! "comment" = Some (VStr "") /\
   isUpdatingRatings updates0 = true /\
   mode_of updates0 = RatingsMode /\
   (run (put_product (H:=platform) id1 updates0) (env_at 2000) [tea]).2 =
     [OpUpdateOne (mkObjectId id1) sd0] /\
   sd0 !! "comment" = Some (VStr "")).
Proof. intros updates sd updates0 sd0. repeat split; vm_refl. Qed.

(** [update("507f1f77bcf86cd799439011", {comment: "great"})] on an
    existing record. *)
Lemma put_comment_only_witness :
  let updates : Doc := {[ "comment" := VStr "great" ]} in
  let env := env_at 2000 in
  let sd : Doc := {[ "comment" := prop updates "comment";
                     "lastModifiedAt" := VDate (env_now env) ]} in
  exists d',
    run (put_product (H:=platform) id1 updates) env ([] ++ tea :: []) =
      (inr (mkResponse 200 {[ "message" := VStr "Comment updated successfully";
                              "product" := VDoc sd ]}),
       ([] ++ d' :: [])%list,
       [OpUpdateOne (ObjectId_new (Platform:=platform) id1) sd]) /\
    d' !! "comment" = Some (prop updates "comment") /\
    d' !! "lastModifiedAt" = Some (VDate (env_now env)) /\
    forall f, f <> "comment" -> f <> "lastModifiedAt" -> d' !! f = tea !! f.
Proof.
  intros updates env.
  apply (put_comment_only (H:=platform) id1 updates env [] [] tea).
  - vm_refl.
  - vm_refl.
  - vm_refl.
  - vm_refl.
  - vm_refl.
  - vm_refl.
  - vm_refl.
  - constructor.
  - vm_refl.
Defined.

(** C2, as stated, fails: an empty comment is a comment field, the update
    document has no field that starts with "ratings.", and the answer is the
    400 of the missing rating; a comment next to a [ratings] object is
    answered the same way. Nothing is sent to the store. *)
Lemma put_comment_field_rejected :
  let empty_comment : Doc := {[ "comment" := VStr "" ]} in
  let with_ratings : Doc :=
    {[ "comment" := VStr "great"; "ratings" := VDoc {[ "nifar" := VNum 5%float ]} ]} in
  (empty_comment !! "comment" = Some (VStr "") /\
   isUpdatingRatings empty_comment = false /\
   run (put_product (H:=platform) id1 empty_comment) (env_at 2000) [tea] =
     (inr (mkResponse 400 (error_body "Rating is required for product updates")),
      [tea], [])) /\
  (with_ratings !! "comment" = Some (VStr "great") /\
   isUpdatingRatings with_ratings = false /\
   run (put_product (H:=platform) id1 with_ratings) (env_at 2000) [tea] =
     (inr (mkResponse 400 (error_body "Rating is required for product updates")),
      [tea], [])).
Proof. intros empty_comment with_ratings. repeat split; vm_refl. Qed.

(** C5 at its failing input: the update document holds "ratings.nifar"
    and a non-empty comment, the product exists and the store works; the
    route answers "Comment updated successfully", what it sends to the store
    has no rating in it, and the stored rating of nifar stays 0. *)
Theorem put_rating_next_to_comment_is_dropped :
  let updates : Doc := {[ "comment" := VStr "great"; "ratings.nifar" := VNum 5%float ]} in
  let sd : Doc := {[ "comment" := VStr "great"; "lastModifiedAt" := VDate 2000 ]} in
  let out := run (put_product (H:=platform) id1 updates) (env_at 2000) [tea] in
  isUpdatingRatings updates = true /\
  ObjectId_isValid (Platform:=platform) id1 = true /\
  has_id (ObjectId_new (Platform:=platform) id1) tea = true /\
  out.1.1 = inr (mkResponse 200 {[ "message" := VStr "Comment updated successfully";
                                   "product" := VDoc sd ]}) /\
  out.2 = [OpUpdateOne (mkObjectId id1) sd] /\
  sd !! "ratings.nifar" = None /\
  (fun d : Doc => opt_member (prop d "ratings") "nifar") <$> out.1.2 = [VNum 0%float].
Proof. intros updates sd out. repeat split; vm_refl. Qed.

(** Creation, then [{ "ratings.nifar": 5 }]. *)
Lemma ratings_keys_invariant_witness :
  Forall ratings_shape
    (run (put_product (H:=platform) id1 {[ "ratings.nifar" := VNum 5%float ]})
       (env_at 2000) created).1.2.
Proof.
  apply (ratings_keys_invariant (H:=platform)).
  apply reach_put; [|apply reach_post, reach_empty].
  intros _ k Hk. rewrite keys_singleton in Hk.
  apply list_elem_of_singleton in Hk. subst k. vm_refl.
Defined.

(** C3, as stated, fails: after a product is created, the update
    [{ "ratings.bob": 5 }] succeeds and leaves it with a fifth key, [bob], in
    its [ratings]. *)
Lemma ratings_keys_not_invariant :
  let c := (run (put_product (H:=platform) id1 {[ "ratings.bob" := VNum 5%float ]})
              (env_at 2000) created).1.2 in
  reachable (H:=platform) c /\ ~ Forall ratings_shape c.
Proof.
  intros c. split.
  - apply reach_put; [done|]. apply reach_post, reach_empty.
  - assert (c = [tea_bob]) as -> by vm_refl.
    intros Hall. apply Forall_cons in Hall as [(m & Hm & Hdom) _].
    assert (tea_bob !! "ratings" = Some (VDoc (<["bob" := VNum 5%float]> ratings0)))
      as Hbob by vm_refl.
    rewrite Hbob in Hm. injection Hm as <-.
    assert ("bob" ∈ reviewers) as Hin.
    { rewrite <- Hdom. apply elem_of_dom. eexists. apply lookup_insert_eq. }
    unfold reviewers in Hin.
    rewrite !elem_of_union, !elem_of_singleton in Hin.
    by destruct Hin as [[[?|?]|?]|?].
Qed.

Lemma put_keeps_identifier_and_createdAt_witness :
  let updates : Doc := {[ "ratings.nifar" := VNum 5%float ]} in
  let c' := (run (put_product (H:=platform) id1 updates) (env_at 2000) [tea]).1.2 in
  (fun d : Doc => d !! "_id") <$> c' = (fun d : Doc => d !! "_id") <$> [tea] /\
  (fun d : Doc => d !! "createdAt") <$> c' = (fun d : Doc => d !! "createdAt") <$> [tea].
Proof.
  intros updates c'.
  destruct (put_keeps_identifier_and_createdAt (H:=platform) id1 updates (env_at 2000) [tea])
    as [Hid Hcreated].
  split; [exact Hid|]. apply Hcreated.
  intros _ k Hk. unfold updates in Hk. rewrite keys_singleton in Hk.
  apply list_elem_of_singleton in Hk. subst k. by vm_compute.
Defined.

(** C4, as stated, fails: an update in ratings mode that also names
    [createdAt] succeeds and overwrites the creation time of the product. *)
Lemma put_overwrites_createdAt :
  let updates : Doc := {[ "ratings.nifar" := VNum 5%float; "createdAt" := VStr "2020" ]} in
  let out := run (put_product (H:=platform) id1 updates) (env_at 2000) [tea] in
  (exists resp, out.1.1 = inr resp /\ status resp = 200) /\
  (fun d : Doc => d !! "createdAt") <$> [tea] = [Some (VDate 1000)] /\
  (fun d : Doc => d !! "createdAt") <$> out.1.2 = [Some (VStr "2020")].
Proof.
  intros updates out. split; [|split; vm_refl].
  exists (mkResponse 200
            {[ "message" := VStr "Product updated successfully";
               "product" := VDoc (<["lastModifiedAt" := VDate 2000]> updates) ]}).
  split; vm_refl.
Qed.

(** * The rest of the code *)



(** ** The CORS callback *)

(** X1: the origin callback refuses every origin a browser can send for
    another site than http://localhost:5173: a non-empty origin that does
    not end in a slash and is not that one gets the error "Not allowed by
    CORS". The deployed site is listed with a trailing slash, so its own
    origin is among the refused. *)
Theorem cors_refuses_origins_without_slash (s : string) :
  s <> "" ->
  Cors.ends_with_slash s = false ->
  s <> "http://localhost:5173" ->
  Cors.origin (Some s) = Cors.Refuse (mkError false None "Not allowed by CORS").
Proof.
  intros Hne Hslash Hlocal. unfold Cors.origin, Cors.absent, Cors.includes. simpl.
  destruct (String.eqb_spec s "") as [?|_]; [done|].
  destruct (String.eqb_spec s "https://bepshapati.vercel.app/") as [->|_]; [done|].
  by destruct (String.eqb_spec s "http://localhost:5173").
Qed.

Lemma cors_refuses_origins_without_slash_witness :
  Cors.origin (Some "https://bepshapati.vercel.app") =
    Cors.Refuse (mkError false None "Not allowed by CORS").
Proof. apply cors_refuses_origins_without_slash; [done|vm_refl|done]. Defined.

(** ** The lazy connection *)

Section BootFacts.
Context {Req : Type}.
Implicit Types (p : Boot.Process (Req:=Req)) (calls : list (bool * Req)).

Lemma serve_connected calls : forall p p',
  Boot.dbConnected p = true ->
  Boot.serve calls p = Some p' ->
  Boot.dbConnected p' = true /\
  Boot.history p' = (Boot.history p ++ (Boot.Served <$> calls.*2))%list.
Proof.
  induction calls as [|[r req] more IH]; intros p p' Hp Hrun; simpl in Hrun.
  - injection Hrun as <-. by rewrite app_nil_r.
  - unfold Boot.handler, Boot.ensureDBConnected in Hrun. rewrite Hp in Hrun.
    simpl in Hrun. apply IH in Hrun as [Hc Hh]; [|done].
    split; [done|]. rewrite Hh. simpl. by rewrite <- app_assoc.
Qed.

(** X2: when requests are handled one after the other from the start of
    the process, the store is connected to once, before the first request is
    handed to the application, and every request is then handed over in
    order; only the state of the network at the first request matters. *)
Theorem handler_connects_once (calls : list (bool * Req)) (p' : Boot.Process) :
  calls <> [] ->
  Boot.serve calls Boot.start = Some p' ->
  Boot.dbConnected p' = true /\
  Boot.history p' = Boot.Connected :: (Boot.Served <$> calls.*2) /\
  (fst <$> head calls) = Some true.
Proof.
  destruct calls as [|[r req] more]; [done|]. intros _ Hrun. simpl in Hrun.
  unfold Boot.handler, Boot.ensureDBConnected, Boot.connectToDB in Hrun.
  simpl in Hrun. destruct r; [|done]. simpl in Hrun.
  apply serve_connected in Hrun as [Hc Hh]; [|done].
  by rewrite Hh.
Qed.

End BootFacts.

Lemma handler_connects_once_witness :
  Boot.dbConnected (Boot.mkProcess true [Boot.Connected; Boot.Served "a"; Boot.Served "b"]) = true /\
  Boot.history (Boot.mkProcess true [Boot.Connected; Boot.Served "a"; Boot.Served "b"]) =
    Boot.Connected :: (Boot.Served <$> [(true, "a"); (false, "b")].*2) /\
  (fst <$> head [(true, "a"); (false, "b")]) = Some true.
Proof.
  apply (handler_connects_once [(true, "a"); (false, "b")]); [done|vm_refl].
Defined.



(** ** Creation *)

Lemma run_post_incomplete body env c :
  truthy (prop body "name") = false \/ isArray (prop body "imageUrls") = false ->
  run (post_product body) env c =
    (inr (mkResponse 400 (error_body "Missing required fields: name and imageUrls")),
     c, []).
Proof.
  intros Hbad. unfold run, post_product, try_catch.
  by destruct Hbad as [-> | ->]; rewrite ?orb_true_r.
Qed.

Lemma run_post_complete body env c :
  truthy (prop body "name") = true -> isArray (prop body "imageUrls") = true ->
  let product := Site.new_product body (env_now env) in
  run (post_product body) env c =
    match settle env (insertOne c (env_fresh env) product) with
    | inl (ThrownError err) =>
        (inr (if is_MongoServerError err && bool_decide (err_code err = Some 11000%Z)
              then mkResponse 409 (error_body "Product with this ID already exists")
              else mkResponse 500 (error_body (err_message err))),
         c, [OpInsertOne product])
    | inl (ThrownValue _) =>
        (inr (mkResponse 500 (error_body "Unknown error occurred")), c,
         [OpInsertOne product])
    | inr (oid, c') =>
        (inr (mkResponse 201 (<["_id" := VStr (oid_hex oid)]> product)), c',
         [OpInsertOne product])
    end.
Proof.
  intros Hname Harr product. unfold run, post_product, try_catch.
  rewrite Hname, Harr. simpl.
  unfold mbind, M_bind, new_Date, await_insertOne. simpl.
  fold (Site.new_product body (env_now env)). fold product.
  destruct (settle env _) as [[err|v]|[oid c']]; simpl; [|done|done].
  by destruct (is_MongoServerError err && _).
Qed.

Lemma new_product_dom body now :
  dom (Site.new_product body now) =
    ({[ "name"; "imageUrls"; "ratings"; "comment"; "createdAt" ]} : gset string).
Proof.
  unfold Site.new_product. rewrite !dom_insert_L, dom_singleton_L. set_solver.
Qed.

Lemma new_product_ratings body now : ratings_shape (Site.new_product body now).
Proof.
  eexists. split; [|apply created_ratings_dom].
  unfold Site.new_product. by simplify_map_eq.
Qed.

(** X3: a body whose [name] is missing or falsy, or whose [imageUrls] is
    not an array, is answered 400 and nothing is sent to the store. *)
Theorem post_rejects_incomplete_body (body : Doc) (env : Env) (c : Collection) :
  truthy (prop body "name") = false \/ isArray (prop body "imageUrls") = false ->
  run (post_product body) env c =
    (inr (mkResponse 400 (error_body "Missing required fields: name and imageUrls")),
     c, []).
Proof. apply run_post_incomplete. Qed.

(** X4: a complete body, with the store working and the new identifier
    unused, adds one product at the end of the collection and is answered
    201 with that product, its identifier as a string. The product has the
    five fields the route builds and no other, whatever else the body holds:
    [name] and [imageUrls] as given, [createdAt] the time of the request,
    [ratings] with the four reviewer keys, and the comment or "". *)
Theorem post_creates_product (body : Doc) (env : Env) (c : Collection) :
  truthy (prop body "name") = true ->
  isArray (prop body "imageUrls") = true ->
  env_fault env = None ->
  existsb (has_id (env_fresh env)) c = false ->
  exists product : Doc,
    run (post_product body) env c =
      (inr (mkResponse 201 (<["_id" := VStr (oid_hex (env_fresh env))]> product)),
       (c ++ [<["_id" := VObjectId (env_fresh env)]> product])%list,
       [OpInsertOne product]) /\
    dom product = ({[ "name"; "imageUrls"; "ratings"; "comment"; "createdAt" ]} : gset string) /\
    product !! "name" = Some (prop body "name") /\
    product !! "imageUrls" = Some (prop body "imageUrls") /\
    product !! "comment" = Some (js_or (prop body "comment") (VStr "")) /\
    product !! "createdAt" = Some (VDate (env_now env)) /\
    ratings_shape product.
Proof.
  intros Hname Harr Hfault Hfresh.
  exists (Site.new_product body (env_now env)). split.
  - rewrite run_post_complete by done. unfold settle, insertOne.
    by rewrite Hfault, Hfresh.
  - split; [apply new_product_dom|].
    split; [by unfold Site.new_product; simplify_map_eq|].
    split; [by unfold Site.new_product; simplify_map_eq|].
    split; [by unfold Site.new_product; simplify_map_eq|].
    split; [by unfold Site.new_product; simplify_map_eq|].
    apply new_product_ratings.
Qed.

(** X5: when the identifier the driver gives the new product is already
    that of a stored product, the store refuses the insertion and the answer
    is 409 "Product with this ID already exists"; the collection is as it
    was. *)
Theorem post_duplicate_identifier (body : Doc) (env : Env) (c : Collection) :
  truthy (prop body "name") = true ->
  isArray (prop body "imageUrls") = true ->
  env_fault env = None ->
  existsb (has_id (env_fresh env)) c = true ->
  exists product,
    run (post_product body) env c =
      (inr (mkResponse 409 (error_body "Product with this ID already exists")),
       c, [OpInsertOne product]).
Proof.
  intros Hname Harr Hfault Hdup. eexists.
  rewrite run_post_complete by done. unfold settle, insertOne.
  by rewrite Hfault, Hdup.
Qed.

(** X6: when the store call of a creation fails with an [Error] that is
    not the duplicate-key error, the answer is 500 with the message of that
    error passed on as it is (the update route answers a fixed message
    instead); any other thrown value gives "Unknown error occurred". The
    collection is as it was. *)
Theorem post_store_failure_message
  (body : Doc) (env : Env) (c : Collection) (e : Exn) :
  truthy (prop body "name") = true ->
  isArray (prop body "imageUrls") = true ->
  env_fault env = Some e ->
  (forall err, e = ThrownError err ->
     is_MongoServerError err && bool_decide (err_code err = Some 11000%Z) = false) ->
  exists product,
    run (post_product body) env c =
      (inr (mkResponse 500 (error_body
              match e with
              | ThrownError err => err_message err
              | ThrownValue _ => "Unknown error occurred"
              end)),
       c, [OpInsertOne product]).
Proof.
  intros Hname Harr Hfault Hnot. eexists.
  rewrite run_post_complete by done. unfold settle. rewrite Hfault.
  destruct e as [err|v]; [|done]. by rewrite (Hnot err eq_refl).
Qed.

(** ** More on the update route *)

Section UpdateMore.
Context `{Platform}.

(** X7: an update sends at most one operation to the store, and exactly
    one when the identifier is well formed and the update document is not
    turned down; a failed store call is not tried again. *)
Theorem put_issues_at_most_one_operation
  (id : string) (updates : Doc) (env : Env) (c : Collection) :
  let ops := (run (put_product id updates) env c).2 in
  length ops <= 1 /\
  (length ops = 1 <-> ObjectId_isValid id = true /\ mode_of updates <> Rejected).
Proof.
  destruct (ObjectId_isValid id) eqn:Hid.
  2:{ rewrite run_put_invalid by done. simpl. split; [lia|]. split; [done|]. by intros [? _]. }
  destruct (set_document (env_now env) updates) as [sd|] eqn:Hsd.
  - rewrite (run_put_sent _ _ _ _ _ Hid Hsd).
    assert (mode_of updates <> Rejected) as Hmode.
    { intros Hm. apply (set_document_None (env_now env)) in Hm. congruence. }
    by destruct (settle env _) as [e|[res c1]]; simpl.
  - apply set_document_None in Hsd. rewrite run_put_rejected by done. simpl.
    split; [lia|]. split; [done|]. by intros [_ ?].
Qed.

(** X8: an update adds no product and removes none, and changes at most
    one: the first product of the collection that has the identifier asked
    for, which keeps it. *)
Theorem put_changes_one_product_at_most
  (id : string) (updates : Doc) (env : Env) (c : Collection) :
  let c' := (run (put_product id updates) env c).1.2 in
  c' = c \/
  exists pre d d' post,
    c = (pre ++ d :: post)%list /\ c' = (pre ++ d' :: post)%list /\
    Forall (fun x => has_id (ObjectId_new id) x = false) pre /\
    has_id (ObjectId_new id) d = true /\ has_id (ObjectId_new id) d' = true.
Proof.
  destruct (ObjectId_isValid id) eqn:Hid.
  2:{ left. by rewrite run_put_invalid. }
  destruct (set_document (env_now env) updates) as [sd|] eqn:Hsd.
  2:{ left. apply set_document_None in Hsd. by rewrite run_put_rejected. }
  rewrite (run_put_sent _ _ _ _ _ Hid Hsd).
  destruct (settle env _) as [e|[res c1]] eqn:Hstore; [by left|].
  unfold settle in Hstore. destruct (env_fault env); [done|].
  apply updateOne_inv in Hstore as [_ [(_ & -> & _)|(_ & Hhit)]]; [by left|].
  destruct Hhit as (pre & d & d' & post & -> & -> & Hpre & Hd & Hset).
  right. exists pre, d, d', post. repeat split; try done.
  unfold has_id in *. by rewrite (set_fields_frame _ _ "_id" _ _ Hset) by (by left).
Qed.

End UpdateMore.




Section RatingStored.
Context `{Platform}.






End RatingStored.



(** ** The routes that read *)

Lemma find_none {A} (f : A -> bool) (l : list A) :
  Forall (fun x => f x = false) l -> List.find f l = None.
Proof. induction 1 as [|x l Hx _ IH]; simpl; [done|]. by rewrite Hx. Qed.

Lemma find_hit {A} (f : A -> bool) (pre post : list A) (x : A) :
  Forall (fun y => f y = false) pre -> f x = true ->
  List.find f (pre ++ x :: post) = Some x.
Proof.
  intros Hpre Hx. induction Hpre as [|y pre Hy _ IH]; simpl.
  - by rewrite Hx.
  - by rewrite Hy.
Qed.

Lemma existsb_false_Forall {A} (f : A -> bool) (l : list A) :
  existsb f l = false -> Forall (fun x => f x = false) l.
Proof.
  induction l as [|x l IH]; simpl; [constructor|].
  intros Hex. apply orb_false_iff in Hex as [Hx Hl]. constructor; auto.
Qed.

Section ReadFacts.
Context `{Platform} `{Host}.

Lemma has_id_prop oid d : has_id oid d = true -> prop d "_id" = VObjectId oid.
Proof.
  unfold has_id, prop. destruct (d !! "_id") as [[]|]; try done.
  intros Ho. by apply bool_decide_eq_true in Ho as ->.
Qed.

(** What [get_product] answers when the identifier is well formed, the
    store works and [p] is the product found. *)
Lemma get_product_of id env db p :
  ObjectId_isValid id = true -> env_fault env = None ->
  List.find (has_id (ObjectId_new id)) (Site.db_products db) = Some p ->
  Site.get_product id env db =
    match Site.opt_toISOString (prop p "createdAt") env db with
    | inl e => Site.report e env db
    | inr createdAt =>
        inr (Site.mkReply 200
               (VDoc (<["createdAt" := createdAt]>
                        (<["_id" := VStr (oid_hex (ObjectId_new id))]> p))))
    end.
Proof.
  intros Hid Hfault Hfind.
  unfold Site.get_product, Site.try_catch, Site.findOne. rewrite Hid. simpl.
  unfold mbind, Site.Q_bind, settle. rewrite Hfault, Hfind.
  apply List.find_some in Hfind as [_ Hp]. rewrite (has_id_prop _ _ Hp). simpl.
  by destruct (Site.opt_toISOString _ env db).
Qed.

(** X10: for a well-formed identifier that no stored product has, with
    the store working, [GET /api/products/:id] answers 404 "Product not
    found". *)
Theorem get_product_not_found (id : string) (env : Env) (db : Site.Db) :
  ObjectId_isValid id = true ->
  env_fault env = None ->
  Forall (fun d => has_id (ObjectId_new id) d = false) (Site.db_products db) ->
  Site.get_product id env db =
    inr (Site.mkReply 404 (VDoc (error_body "Product not found"))).
Proof.
  intros Hid Hfault Hnone.
  unfold Site.get_product, Site.try_catch, Site.findOne. rewrite Hid. simpl.
  unfold mbind, Site.Q_bind, settle. by rewrite Hfault, (find_none _ _ Hnone).
Qed.

(** X11: a stored product whose [createdAt] is a valid date is answered
    200 with all its fields as stored, except that [_id] is the hexadecimal
    string of the identifier and [createdAt] the ISO string of the date. *)
Theorem get_product_found
  (id : string) (env : Env) (db : Site.Db) (pre post : Collection) (d : Doc)
  (t : Z) (s : string) :
  ObjectId_isValid id = true ->
  env_fault env = None ->
  Site.db_products db = (pre ++ d :: post)%list ->
  Forall (fun x => has_id (ObjectId_new id) x = false) pre ->
  has_id (ObjectId_new id) d = true ->
  d !! "createdAt" = Some (VDate t) ->
  Date_toISOString t = Some s ->
  Site.get_product id env db =
    inr (Site.mkReply 200
           (VDoc (<["createdAt" := VStr s]>
                    (<["_id" := VStr (oid_hex (ObjectId_new id))]> d)))).
Proof.
  intros Hid Hfault Hdb Hpre Hd Hcreated Hiso.
  rewrite (get_product_of id env db d); try done.
  - unfold prop. rewrite Hcreated. simpl. by rewrite Hiso.
  - rewrite Hdb. by apply find_hit.
Qed.

(** X12: creation and lookup compose. After a creation answered 201,
    [GET /api/products/:id] with the [_id] of that answer returns the
    product of the answer, with [createdAt] as the ISO string of the time of
    creation. (The identifier string of the driver reads back as the same
    identifier.) *)
Theorem post_then_get_product
  (request : Doc) (env env' : Env) (c c' users : Collection)
  (resp : Response) (ops : list StoreOp) (s : string) :
  run (post_product request) env c = (inr resp, c', ops) ->
  status resp = 201 ->
  ObjectId_isValid (oid_hex (env_fresh env)) = true ->
  ObjectId_new (oid_hex (env_fresh env)) = env_fresh env ->
  Date_toISOString (env_now env) = Some s ->
  env_fault env' = None ->
  body resp !! "_id" = Some (VStr (oid_hex (env_fresh env))) /\
  Site.get_product (oid_hex (env_fresh env)) env' (Site.mkDb c' users) =
    inr (Site.mkReply 200 (VDoc (<["createdAt" := VStr s]> (body resp)))).
Proof.
  intros Hrun Hok Hvalid Hback Hiso Hfault'.
  destruct (truthy (prop request "name")) eqn:Hname.
  2:{ rewrite run_post_incomplete in Hrun by (by left). by injection Hrun as <- _ _. }
  destruct (isArray (prop request "imageUrls")) eqn:Harr.
  2:{ rewrite run_post_incomplete in Hrun by (by right). by injection Hrun as <- _ _. }
  rewrite run_post_complete in Hrun by done.
  destruct (settle env _) as [[err|v]|[oid c1]] eqn:Hstore.
  { injection Hrun as <- _ _. by destruct (is_MongoServerError err && _). }
  { by injection Hrun as <- _ _. }
  injection Hrun as <- <- <-.
  unfold settle in Hstore. destruct (env_fault env); [done|].
  unfold insertOne in Hstore.
  destruct (existsb (has_id (env_fresh env)) c) eqn:Hfresh; [done|].
  injection Hstore as <- <-. simpl.
  split; [apply lookup_insert_eq|].
  set (product := Site.new_product request (env_now env)).
  rewrite (get_product_of _ env' _ (<["_id" := VObjectId (env_fresh env)]> product));
    try done.
  - unfold prop. rewrite lookup_insert_ne by done.
    assert (product !! "createdAt" = Some (VDate (env_now env))) as ->
      by (unfold product, Site.new_product; by simplify_map_eq).
    simpl. rewrite Hiso. simpl. by rewrite Hback, insert_insert_eq.
  - simpl. rewrite Hback. apply find_hit.
    + by apply existsb_false_Forall.
    + unfold has_id. rewrite lookup_insert_eq. by apply bool_decide_eq_true.
Qed.

End ReadFacts.



Section ReadAfterWrite.
Context `{Platform} `{Host}.

Lemma opt_toISOString_const v env db env' db' :
  Site.opt_toISOString v env db = Site.opt_toISOString v env' db'.
Proof.
  destruct v; try done. simpl. by destruct (Date_toISOString t).
Qed.

Lemma report_status e env db :
  exists msg, Site.report e env db = inr (Site.mkReply 500 (VDoc (error_body msg))).
Proof. destruct e; by eexists. Qed.

(** A 200 from [get_product] comes from a product found and converted. *)
Lemma get_product_200_inv id env db (B : Doc) :
  Site.get_product id env db = inr (Site.mkReply 200 (VDoc B)) ->
  ObjectId_isValid id = true /\
  exists p createdAt,
    List.find (has_id (ObjectId_new id)) (Site.db_products db) = Some p /\
    Site.opt_toISOString (prop p "createdAt") env db = inr createdAt /\
    B = <["createdAt" := createdAt]> (<["_id" := VStr (oid_hex (ObjectId_new id))]> p).
Proof.
  intros Hget. destruct (ObjectId_isValid id) eqn:Hid.
  2:{ unfold Site.get_product, Site.try_catch in Hget. rewrite Hid in Hget. done. }
  split; [done|].
  destruct (env_fault env) as [e|] eqn:Hfault.
  { unfold Site.get_product, Site.try_catch, Site.findOne in Hget.
    rewrite Hid in Hget. simpl in Hget.
    unfold mbind, Site.Q_bind, settle in Hget. rewrite Hfault in Hget.
    destruct (report_status e env db) as [msg Hmsg]. by rewrite Hmsg in Hget. }
  destruct (List.find (has_id (ObjectId_new id)) (Site.db_products db)) as [p|] eqn:Hfind.
  2:{ unfold Site.get_product, Site.try_catch, Site.findOne in Hget.
      rewrite Hid in Hget. simpl in Hget.
      unfold mbind, Site.Q_bind, settle in Hget. by rewrite Hfault, Hfind in Hget. }
  rewrite (get_product_of id env db p) in Hget by done.
  destruct (Site.opt_toISOString (prop p "createdAt") env db) as [e|cv] eqn:Hconv.
  { destruct (report_status e env db) as [msg Hmsg]. by rewrite Hmsg in Hget. }
  injection Hget as <-. by exists p, cv.
Qed.

(** What a successful update leaves behind: the first product with the
    identifier, rewritten by the [$set] document of the mode. *)
Lemma run_put_success id updates env c c' resp ops :
  run (put_product id updates) env c = (inr resp, c', ops) ->
  status resp = 200 ->
  ObjectId_isValid id = true /\
  exists sd pre d d' post,
    set_document (env_now env) updates = Some sd /\
    valid_update sd = true /\
    c = (pre ++ d :: post)%list /\ c' = (pre ++ d' :: post)%list /\
    Forall (fun x => has_id (ObjectId_new id) x = false) pre /\
    has_id (ObjectId_new id) d = true /\ has_id (ObjectId_new id) d' = true /\
    apply_set (ObjectId_new id) sd d = inr d'.
Proof.
  intros Hrun Hok.
  destruct (ObjectId_isValid id) eqn:Hid.
  2:{ rewrite run_put_invalid in Hrun by done. by injection Hrun as <- _ _. }
  split; [done|].
  destruct (set_document (env_now env) updates) as [sd|] eqn:Hsd.
  2:{ apply set_document_None in Hsd. rewrite run_put_rejected in Hrun by done.
      by injection Hrun as <- _ _. }
  rewrite (run_put_sent _ _ _ _ _ Hid Hsd) in Hrun.
  destruct (settle env _) as [e|[res c1]] eqn:Hstore.
  { by injection Hrun as <- _ _. }
  injection Hrun as <- <- <-.
  destruct (Nat.eqb (matchedCount res) 0) eqn:Hm0; [done|].
  unfold settle in Hstore. destruct (env_fault env); [done|].
  apply updateOne_inv in Hstore as [Hvalid [(Hzero & _)|(_ & Hhit)]].
  { by rewrite Hzero in Hm0. }
  destruct Hhit as (pre & d & d' & post & -> & -> & Hpre & Hd & Hset).
  exists sd, pre, d, d', post. repeat split; try done.
  unfold has_id in *. by rewrite (set_fields_frame _ _ "_id" _ _ Hset) by (by left).
Qed.

(** X13: update and lookup compose. If [GET /api/products/:id] answered
    200 before a comment-only update of that product succeeds, it answers
    200 afterwards (with the store working), with the same product except
    for [comment], which is the comment sent, and [lastModifiedAt], which is
    the time of the update. *)
Theorem put_comment_then_get_product
  (id : string) (updates : Doc) (env env0 env1 : Env) (c c' users : Collection)
  (resp : Response) (ops : list StoreOp) (B : Doc) :
  Site.get_product id env0 (Site.mkDb c users) = inr (Site.mkReply 200 (VDoc B)) ->
  run (put_product id updates) env c = (inr resp, c', ops) ->
  status resp = 200 ->
  comment_guard updates = true ->
  env_fault env1 = None ->
  Site.get_product id env1 (Site.mkDb c' users) =
    inr (Site.mkReply 200
           (VDoc (<["lastModifiedAt" := VDate (env_now env)]>
                    (<["comment" := prop updates "comment"]> B)))).
Proof.
  intros Hget Hrun Hok Hg Hfault1.
  apply get_product_200_inv in Hget as (Hid & p & cv & Hfind & Hconv & ->).
  apply run_put_success in Hrun as (_ & sd & pre & d & d' & post & Hsd & _ & -> & -> &
                                     Hpre & Hd & Hd' & Hset); [|done].
  simpl in Hfind. rewrite (find_hit _ _ _ _ Hpre Hd) in Hfind. injection Hfind as <-.
  unfold set_document, mode_of in Hsd. rewrite Hg in Hsd. injection Hsd as <-.
  rewrite comment_set_apply in Hset. injection Hset as <-.
  rewrite (get_product_of id env1 (Site.mkDb _ users) _ Hid Hfault1)
    by (simpl; by apply find_hit).
  unfold prop at 1. rewrite !lookup_insert_ne by done.
  fold (prop d "createdAt").
  rewrite (opt_toISOString_const _ env1 _ env0 (Site.mkDb (pre ++ d :: post) users)), Hconv.
  do 3 f_equal.
  rewrite (insert_insert_ne _ "_id" "lastModifiedAt") by done.
  rewrite (insert_insert_ne _ "createdAt" "lastModifiedAt") by done.
  f_equal.
  rewrite (insert_insert_ne _ "_id" "comment") by done.
  by rewrite (insert_insert_ne _ "createdAt" "comment") by done.
Qed.

(** X14: when an update in ratings mode that also sets [createdAt] to a
    value that is neither null nor a date succeeds (any JSON string, number,
    boolean, array or object), every later [GET /api/products/:id] of that
    product is answered 500, whatever the state of the store. *)
Theorem put_createdAt_then_get_fails
  (id : string) (updates : Doc) (env env' : Env) (c c' users : Collection)
  (resp : Response) (ops : list StoreOp) (v : Value) :
  run (put_product id updates) env c = (inr resp, c', ops) ->
  status resp = 200 ->
  comment_guard updates = false ->
  updates !! "createdAt" = Some v ->
  Site.not_a_date v = true ->
  exists msg,
    Site.get_product id env' (Site.mkDb c' users) =
      inr (Site.mkReply 500 (VDoc (error_body msg))).
Proof.
  intros Hrun Hok Hg Hv Hnot.
  apply run_put_success in Hrun as (Hid & sd & pre & d & d' & post & Hsd & Hvalid & -> & -> &
                                     Hpre & Hd & Hd' & Hset); [|done].
  assert (sd !! "createdAt" = Some v) as Hsdv.
  { unfold set_document, mode_of in Hsd. rewrite Hg in Hsd.
    destruct (isUpdatingRatings updates); [|done]. injection Hsd as <-.
    by rewrite lookup_insert_ne. }
  assert (d' !! "createdAt" = Some v) as Hstored by (by eapply apply_set_top).
  destruct (env_fault env') as [e|] eqn:Hfault.
  - unfold Site.get_product, Site.try_catch, Site.findOne. rewrite Hid. simpl.
    unfold mbind, Site.Q_bind, settle. rewrite Hfault. apply report_status.
  - rewrite (get_product_of id env' (Site.mkDb _ users) _ Hid Hfault)
      by (simpl; by apply find_hit).
    unfold prop. rewrite Hstored. simpl.
    destruct v; try done; by eexists.
Qed.

(** X15: whatever the body, the users and the state of the store, an
    answer of [POST /api/login] that carries a [user] carries exactly three
    fields of one stored user that satisfies the filter built from the
    body: its [_id] as [username], its [name] and its [role]; the stored
    password is not part of any answer. *)
Theorem login_discloses_three_fields (request : Doc) (env : Env) (db : Site.Db) :
  exists rep,
    Site.post_login request env db = inr rep /\
    forall (b m : Doc),
      Site.reply_body rep = VDoc b -> b !! "user" = Some (VDoc m) ->
      exists u,
        u ∈ Site.db_users db /\
        filter_matches {[ "_id" := prop request "username";
                          "password" := prop request "password" ]} u = true /\
        m = {[ "username" := prop u "_id"; "name" := prop u "name";
               "role" := prop u "role" ]} /\
        dom m = ({[ "username"; "name"; "role" ]} : gset string).
Proof.
  unfold Site.post_login, Site.try_catch, Site.findOne.
  unfold mbind, Site.Q_bind, settle.
  destruct (env_fault env) as [e|].
  { destruct (report_status e env db) as [msg ->]. eexists. split; [done|].
    intros b m Hb Hu. simpl in Hb. injection Hb as <-.
    unfold error_body in Hu. by rewrite lookup_singleton_ne in Hu. }
  destruct (List.find _ (Site.db_users db)) as [u|] eqn:Hfind; simpl.
  - eexists. split; [done|]. intros b m Hb Hu. simpl in Hb. injection Hb as <-.
    rewrite lookup_insert_ne, lookup_singleton_eq in Hu by done. injection Hu as <-.
    apply List.find_some in Hfind as [Hin Hmatch]. apply list_elem_of_In in Hin.
    exists u. repeat split; try done.
  - eexists. split; [done|]. intros b m Hb Hu. simpl in Hb. injection Hb as <-.
    unfold error_body in Hu. by rewrite lookup_singleton_ne in Hu.
Qed.

(** X16: with the store working, a login whose filter no stored user
    satisfies is answered 401 "Invalid credentials". *)
Theorem login_invalid_credentials (request : Doc) (env : Env) (db : Site.Db) :
  env_fault env = None ->
  Forall (fun u => filter_matches {[ "_id" := prop request "username";
                                      "password" := prop request "password" ]} u = false)
         (Site.db_users db) ->
  Site.post_login request env db =
    inr (Site.mkReply 401 (VDoc (error_body "Invalid credentials"))).
Proof.
  intros Hfault Hnone.
  unfold Site.post_login, Site.try_catch, Site.findOne.
  unfold mbind, Site.Q_bind, settle. by rewrite Hfault, (find_none _ _ Hnone).
Qed.

End ReadAfterWrite.



Section ListFacts.
Context `{Platform} `{Host}.



End ListFacts.

(** ** Scenarios for the rest of the code *)

Import SampleSite.

Lemma post_rejects_incomplete_body_witness :
  run (post_product {[ "imageUrls" := VArr [] ]}) (env_at 1000) [tea] =
    (inr (mkResponse 400 (error_body "Missing required fields: name and imageUrls")),
     [tea], []).
Proof. apply post_rejects_incomplete_body. left. vm_refl. Defined.

Lemma post_creates_product_witness :
  let env := env_at 1000 in
  exists product : Doc,
    run (post_product body_tea) env [] =
      (inr (mkResponse 201 (<["_id" := VStr (oid_hex (env_fresh env))]> product)),
       ([] ++ [<["_id" := VObjectId (env_fresh env)]> product])%list,
       [OpInsertOne product]) /\
    dom product = ({[ "name"; "imageUrls"; "ratings"; "comment"; "createdAt" ]} : gset string) /\
    product !! "name" = Some (prop body_tea "name") /\
    product !! "imageUrls" = Some (prop body_tea "imageUrls") /\
    product !! "comment" = Some (js_or (prop body_tea "comment") (VStr "")) /\
    product !! "createdAt" = Some (VDate (env_now env)) /\
    ratings_shape product.
Proof.
  intros env. apply (post_creates_product body_tea env []); vm_refl.
Defined.

Lemma post_duplicate_identifier_witness :
  exists product,
    run (post_product body_tea) (env_at 1000) [tea] =
      (inr (mkResponse 409 (error_body "Product with this ID already exists")),
       [tea], [OpInsertOne product]).
Proof. apply (post_duplicate_identifier body_tea (env_at 1000) [tea]); vm_refl. Defined.

Lemma post_store_failure_message_witness :
  exists product,
    run (post_product body_tea) env_lost [] =
      (inr (mkResponse 500 (error_body
              match lost with
              | ThrownError err => err_message err
              | ThrownValue _ => "Unknown error occurred"
              end)),
       [], [OpInsertOne product]).
Proof.
  apply (post_store_failure_message body_tea env_lost [] lost); try vm_refl.
  intros err Heq. injection Heq as <-. vm_refl.
Defined.


Lemma get_product_not_found_witness :
  Site.get_product (H:=platform) (H0:=host) id2 (env_at 3000) (Site.mkDb [tea] [amin]) =
    inr (Site.mkReply 404 (VDoc (error_body "Product not found"))).
Proof.
  apply (get_product_not_found (H:=platform) (H0:=host)); try vm_refl.
  constructor; [vm_refl|constructor].
Defined.

Lemma get_product_found_witness :
  Site.get_product (H:=platform) (H0:=host) id1 (env_at 3000) (Site.mkDb [tea] [amin]) =
    inr (Site.mkReply 200
           (VDoc (<["createdAt" := VStr "1970-01-01T00:00:01.000Z"]>
                    (<["_id" := VStr (oid_hex (ObjectId_new (Platform:=platform) id1))]> tea)))).
Proof.
  apply (get_product_found (H:=platform) (H0:=host) id1 (env_at 3000)
           (Site.mkDb [tea] [amin]) [] [] tea 1000); try vm_refl.
  constructor.
Defined.

Lemma post_then_get_product_witness :
  let env := env_at 1000 in
  let resp := mkResponse 201 (<["_id" := VStr id1]> (Site.new_product body_tea 1000)) in
  body resp !! "_id" = Some (VStr (oid_hex (env_fresh env))) /\
  Site.get_product (H:=platform) (H0:=host) (oid_hex (env_fresh env)) (env_at 3000)
    (Site.mkDb [tea] [amin]) =
    inr (Site.mkReply 200 (VDoc (<["createdAt" := VStr "1970-01-01T00:00:01.000Z"]> (body resp)))).
Proof.
  intros env resp.
  apply (post_then_get_product (H:=platform) (H0:=host) body_tea env (env_at 3000)
           [] [tea] [amin] resp [OpInsertOne (Site.new_product body_tea 1000)]);
    vm_refl.
Defined.

Lemma put_comment_then_get_product_witness :
  let B : Doc := <["createdAt" := VStr "1970-01-01T00:00:01.000Z"]>
                   (<["_id" := VStr id1]> tea) in
  let updates : Doc := {[ "comment" := VStr "great" ]} in
  let env := env_at 2000 in
  Site.get_product (H:=platform) (H0:=host) id1 (env_at 3000)
    (Site.mkDb [tea_commented] [amin]) =
    inr (Site.mkReply 200
           (VDoc (<["lastModifiedAt" := VDate (env_now env)]>
                    (<["comment" := prop updates "comment"]> B)))).
Proof.
  intros B updates env.
  apply (put_comment_then_get_product (H:=platform) (H0:=host) id1 updates env
           (env_at 1500) (env_at 3000) [tea] [tea_commented] [amin]
           (mkResponse 200 {[ "message" := VStr "Comment updated successfully";
                              "product" := VDoc {[ "comment" := VStr "great";
                                                   "lastModifiedAt" := VDate 2000 ]} ]})
           [OpUpdateOne (mkObjectId id1)
              {[ "comment" := VStr "great"; "lastModifiedAt" := VDate 2000 ]}]);
    vm_refl.
Defined.

Lemma put_createdAt_then_get_fails_witness :
  let redated : Doc :=
    <["lastModifiedAt" := VDate 2000]>
      (<["createdAt" := VStr "2020"]>
         (<["ratings" := VDoc (<["nifar" := VNum 5%float]> ratings0)]> tea)) in
  exists msg,
    Site.get_product (H:=platform) (H0:=host) id1 (env_at 3000)
      (Site.mkDb [redated] [amin]) =
      inr (Site.mkReply 500 (VDoc (error_body msg))).
Proof.
  intros redated.
  set (updates := ({[ "ratings.nifar" := VNum 5%float; "createdAt" := VStr "2020" ]} : Doc)).
  apply (put_createdAt_then_get_fails (H:=platform) (H0:=host) id1 updates
           (env_at 2000) (env_at 3000) [tea] [redated] [amin]
           (mkResponse 200 {[ "message" := VStr "Product updated successfully";
                              "product" := VDoc (<["lastModifiedAt" := VDate 2000]> updates) ]})
           [OpUpdateOne (mkObjectId id1) (<["lastModifiedAt" := VDate 2000]> updates)]
           (VStr "2020")); vm_refl.
Defined.

Lemma login_invalid_credentials_witness :
  Site.post_login (H0:=host) {[ "username" := VStr "amin"; "password" := VStr "guess" ]}
    (env_at 3000) (Site.mkDb [tea] [amin]) =
    inr (Site.mkReply 401 (VDoc (error_body "Invalid credentials"))).
Proof.
  apply (login_invalid_credentials (H0:=host)); [vm_refl|].
  constructor; [vm_refl|constructor].
Defined.

